(** * Slack-to-Knowledge-Agent webhook example: model and properties

    A shallow embedding of [examples/slack_webhook_example.py].

    - Python values that travel through the script (decoded JSON) are the
      inductive [value]; a Python [dict] with string keys is a
      [gmap string value].
    - Python exceptions are the inductive [exn], one constructor per class
      the script distinguishes in its [except] clauses or can raise itself.
    - The outside world (the Slack Web API client and the [requests]
      library) is a record of oracles, [World]; every call made to it and
      every [print] is recorded, in program order, in a trace of [event]s.
    - Code that can raise and has effects lives in the monad [Eff]:
      an outcome ([exn + A]) together with the trace it produced.
    - Python [str] is modelled by [string] (a byte string); [str.lower] is
      modelled on the ASCII letters, other bytes are left unchanged.
    - [print] raises when the standard output cannot encode the text (a
      [UnicodeEncodeError], for instance on a lone surrogate, which a JSON
      body may carry). This is modelled where the script prints text
      supplied by its caller: the channel and the thread timestamp in the
      first line of [ingest_thread]. The other lines print text of the
      script, of the services' answers and of exceptions, taken to be
      printable. *)

From stdpp Require Import gmap strings list fin_maps.
From Stdlib Require Import ZArith Ascii.

Set Warnings "-register-all".

Local Open Scope Z_scope.

(** ** Python values *)

Inductive value : Type :=
| VNone
| VBool (b : bool)
| VInt (z : Z)
| VStr (s : string)
| VList (l : list value)
| VDict (d : gmap string value).

(** The name [type(v).__name__], as it appears in CPython's error messages. *)
Definition type_name (v : value) : string :=
  match v with
  | VNone => "NoneType"
  | VBool _ => "bool"
  | VInt _ => "int"
  | VStr _ => "str"
  | VList _ => "list"
  | VDict _ => "dict"
  end.

(** ** Exceptions

    All are subclasses of [Exception]. [SlackApiError] carries
    [e.response['error']]; [RequestException] stands for
    [requests.exceptions.RequestException] and its subclasses (connection
    errors, timeouts, [HTTPError], the decoding error of [response.json()]);
    [OtherException] is any other class. *)

Inductive exn : Type :=
| SlackApiError (msg : string) (error : value)
| RequestException (msg : string)
| KeyError (key : string)
| TypeError (msg : string)
| AttributeError (msg : string)
| OtherException (msg : string).

(** [str(e)]. The keys of the [KeyError]s raised below are plain
    identifiers, whose [repr] is the key between single quotes. *)
Definition exn_str (e : exn) : string :=
  match e with
  | SlackApiError msg _ => msg
  | RequestException msg => msg
  | KeyError key => "'" +:+ key +:+ "'"
  | TypeError msg => msg
  | AttributeError msg => msg
  | OtherException msg => msg
  end.

(** ** Strings *)

Definition ascii_lower (c : ascii) : ascii :=
  let n := nat_of_ascii c in
  if ((65 <=? n) && (n <=? 90))%nat then ascii_of_nat (n + 32) else c.

(** [s.lower()] *)
Fixpoint str_lower (s : string) : string :=
  match s with
  | EmptyString => EmptyString
  | String c s' => String (ascii_lower c) (str_lower s')
  end.

(** [needle in s] for two strings *)
Fixpoint str_contains (needle s : string) : bool :=
  String.prefix needle s ||
  match s with
  | EmptyString => false
  | String _ s' => str_contains needle s'
  end.

Definition ascii_mem (c : ascii) (chars : string) : bool :=
  existsb (Ascii.eqb c) (String.list_ascii_of_string chars).

(** [s.rstrip(chars)]: drop the longest suffix made of characters of
    [chars]. *)
Fixpoint rstrip (chars s : string) : string :=
  match s with
  | EmptyString => EmptyString
  | String c s' =>
      match rstrip chars s' with
      | EmptyString => if ascii_mem c chars then EmptyString else String c EmptyString
      | r => String c r
      end
  end.

(** [c * n] for a one-character string *)
Fixpoint str_repeat (c : ascii) (n : nat) : string :=
  match n with
  | O => EmptyString
  | S n' => String c (str_repeat c n')
  end.

(** [s.endswith(c)] for a one-character string *)
Fixpoint ends_with (c : ascii) (s : string) : bool :=
  match s with
  | EmptyString => false
  | String a EmptyString => Ascii.eqb a c
  | String _ s' => ends_with c s'
  end.

(** ** Operations of the Python data model used by the script *)

Definition is_str (s : string) (v : value) : bool :=
  match v with
  | VStr s' => String.eqb s' s
  | _ => false
  end.

(** [bool(v)] *)
Definition py_truthy (v : value) : bool :=
  match v with
  | VNone => false
  | VBool b => b
  | VInt z => negb (z =? 0)
  | VStr s => negb (String.eqb s "")
  | VList l => match l with [] => false | _ => true end
  | VDict d => negb (bool_decide (d = ∅))
  end.

(** [key in container], for a string [key] *)
Definition py_contains (key : string) (container : value) : exn + bool :=
  match container with
  | VDict d => inr (bool_decide (is_Some (d !! key)))
  | VList l => inr (existsb (is_str key) l)
  | VStr s => inr (str_contains key s)
  | _ => inl (TypeError ("argument of type '" +:+ type_name container +:+ "' is not iterable"))
  end.

(** [container[key]], for a string [key] *)
Definition py_getitem (container : value) (key : string) : exn + value :=
  match container with
  | VDict d =>
      match d !! key with
      | Some v => inr v
      | None => inl (KeyError key)
      end
  | VList _ => inl (TypeError "list indices must be integers or slices, not str")
  | VStr _ => inl (TypeError "string indices must be integers, not 'str'")
  | _ => inl (TypeError ("'" +:+ type_name container +:+ "' object is not subscriptable"))
  end.

(** [obj.get(key, dflt)] *)
Definition py_get (obj : value) (key : string) (dflt : value) : exn + value :=
  match obj with
  | VDict d => inr (default dflt (d !! key))
  | _ => inl (AttributeError ("'" +:+ type_name obj +:+ "' object has no attribute 'get'"))
  end.

(** [obj.lower()] *)
Definition py_lower (obj : value) : exn + string :=
  match obj with
  | VStr s => inr (str_lower s)
  | _ => inl (AttributeError ("'" +:+ type_name obj +:+ "' object has no attribute 'lower'"))
  end.

(** [len(obj)] *)
Definition py_len (obj : value) : exn + Z :=
  match obj with
  | VStr s => inr (Z.of_nat (String.length s))
  | VList l => inr (Z.of_nat (length l))
  | VDict d => inr (Z.of_nat (size d))
  | _ => inl (TypeError ("object of type '" +:+ type_name obj +:+ "' has no len()"))
  end.

(** The items a [for] loop over [obj] visits: the elements of a list, the
    keys of a dict, the characters of a string. A [gmap] does not keep the
    insertion order of a dict; the only loop of the script, in
    [fetch_thread], stops with the same [AttributeError] on whichever key
    comes first. *)
Definition py_iter (obj : value) : exn + list value :=
  match obj with
  | VList l => inr l
  | VDict d => inr (VStr <$> (map_to_list d).*1)
  | VStr s => inr ((λ c, VStr (String c EmptyString)) <$> String.list_ascii_of_string s)
  | _ => inl (TypeError ("'" +:+ type_name obj +:+ "' object is not iterable"))
  end.

(** ** The interpreter and the outside world *)

(** What the script uses of the Python runtime and is left abstract: the
    formatting of a value inside an f-string ([format(v, "")], which is
    [str(v)] for the values met here), [json.loads], and the standard
    output: [stdout_error line] is the exception that writing [line]
    raises ([UnicodeEncodeError] when the encoding of the stream has no
    code for some character of it), [None] when the line is written. *)
Record Runtime : Type := {
  py_format : value → string;
  json_loads : string → exn + value;
  stdout_error : string → option exn
}.

(** A [requests.Response]: its status code, the message
    [raise_for_status] builds from the status line and the URL, and the
    outcome of [response.json()]. *)
Record HttpResponse : Type := {
  status_code : Z;
  http_error_msg : string;
  json : exn + value
}.

(** [response.raise_for_status()] of the [requests] library: an
    [HTTPError] for a client error (400-499) or a server error (500-599),
    nothing for any other status code. *)
Definition raise_for_status (response : HttpResponse) : exn + unit :=
  if (400 <=? status_code response) && (status_code response <? 600)
  then inl (RequestException (http_error_msg response))
  else inr tt.

(** The remote services: what each call answers. *)
Record World : Type := {
  (** [slack_client.conversations_replies(channel=, ts=, inclusive=True)] *)
  conversations_replies : value → value → exn + value;
  (** [slack_client.chat_postMessage(channel=, thread_ts=, text=)] *)
  chat_postMessage : value → value → string → exn + value;
  (** [requests.post(endpoint, json=, timeout=)] *)
  requests_post : string → value → Z → exn + HttpResponse
}.

(** What the script does to the outside, in program order. *)
Inductive event : Type :=
| ConversationsReplies (channel ts : value)
| ChatPostMessage (channel thread_ts : value) (text : string)
| RequestsPost (endpoint : string) (payload : value) (timeout : Z)
| Print (line : string).

(** ** The effect monad: an outcome and the trace produced on the way *)

Definition Eff (A : Type) : Type := (exn + A) * list event.

Definition outcome {A} (m : Eff A) : exn + A := m.1.
Definition trace {A} (m : Eff A) : list event := m.2.

Definition ret {A} (a : A) : Eff A := (inr a, []).
Definition raise {A} (e : exn) : Eff A := (inl e, []).

(** A pure computation that may raise *)
Definition lift {A} (r : exn + A) : Eff A := (r, []).

(** An effect with no answer ([print]) *)
Definition emit (ev : event) : Eff unit := (inr tt, [ev]).

(** A call to the outside: recorded, then answered by the world *)
Definition call {A} (ev : event) (answer : exn + A) : Eff A := (answer, [ev]).

Definition bind {A B} (m : Eff A) (k : A → Eff B) : Eff B :=
  match m.1 with
  | inl e => (inl e, m.2)
  | inr a => ((k a).1, m.2 ++ (k a).2)
  end.

(** [try: m  except Exception as e: handler e] -- a handler that does not
    want the exception re-raises it. *)
Definition try_except {A} (m : Eff A) (handler : exn → Eff A) : Eff A :=
  match m.1 with
  | inl e => ((handler e).1, m.2 ++ (handler e).2)
  | inr a => m
  end.

(** Sequencing uses stdpp's monad notations: [x ← m; k] and [m;; k]. *)
#[global] Instance eff_ret : MRet Eff := @ret.
#[global] Instance eff_bind : MBind Eff := λ A B k m, bind m k.

(** ** class SlackToKnowledgeAgent *)

Record SlackToKnowledgeAgent : Type := {
  slack_token : option string;
  knowledge_agent_url : string
}.

(** [__init__] *)
Definition init (slack_token : option string) (knowledge_agent_url : string)
  : SlackToKnowledgeAgent :=
  {| slack_token := slack_token;
     knowledge_agent_url := rstrip "/" knowledge_agent_url |}.

(** The endpoint of [send_to_knowledge_agent] *)
Definition endpoint (self : SlackToKnowledgeAgent) : string :=
  knowledge_agent_url self +:+ "/api/query".

(** The dict appended for one raw message in [fetch_thread] *)
Definition message_of (msg : value) : exn + value :=
  match py_get msg "user" (VStr "unknown") with
  | inl e => inl e
  | inr user =>
  match py_get msg "text" (VStr "") with
  | inl e => inl e
  | inr text =>
  match py_get msg "ts" (VStr "") with
  | inl e => inl e
  | inr ts =>
  match py_get msg "type" (VStr "message") with
  | inl e => inl e
  | inr type =>
      inr (VDict (<["user" := user]> (<["text" := text]>
                 (<["ts" := ts]> (<["type" := type]> ∅)))))
  end end end end.

(** The loop [for msg in ...: messages.append({...})], started with the
    list [messages] built so far. *)
Fixpoint append_messages (raw : list value) (messages : list value)
  : exn + list value :=
  match raw with
  | [] => inr messages
  | msg :: raw' =>
      match message_of msg with
      | inl e => inl e
      | inr m => append_messages raw' (messages ++ [m])
      end
  end.

(** [result[key]] on the [SlackResponse] that the Slack client returns:
    the library defines it as [result.data.get(key, None)], with a
    [ValueError] when the answer has no data. *)
Definition slack_response_getitem (result : value) (key : string) : exn + value :=
  match result with
  | VDict data => inr (default VNone (data !! key))
  | VNone =>
      inl (OtherException
             "As the response.data is empty, this operation is unsupported")
  | _ => inl (AttributeError
                ("'" +:+ type_name result +:+ "' object has no attribute 'get'"))
  end.

Section Integrator.

Context (rt : Runtime) (w : World) (self : SlackToKnowledgeAgent).

(** [print(line)] of text that the standard output may be unable to
    encode: nothing is written when it raises. *)
Definition print_line (line : string) : Eff unit :=
  match stdout_error rt line with
  | Some e => raise e
  | None => emit (Print line)
  end.

(** The first line [ingest_thread] prints *)
Definition fetching_line (channel_id thread_ts : value) : string :=
  "Fetching thread " +:+ py_format rt thread_ts +:+
  " from channel " +:+ py_format rt channel_id +:+ "...".

Definition fetch_thread (channel_id thread_ts : value)
  : Eff (gmap string value) :=
  try_except
    (result ← call (ConversationsReplies channel_id thread_ts)
                   (conversations_replies w channel_id thread_ts);
     raw ← lift (slack_response_getitem result "messages");
     items ← lift (py_iter raw);
     messages ← lift (append_messages items []);
     ret (<["thread_ts" := thread_ts]> (<["channel_id" := channel_id]>
         (<["messages" := VList messages]> ∅))))
    (λ e, match e with
          | SlackApiError _ error =>
              emit (Print ("Error fetching thread: " +:+ py_format rt error));;
              raise e
          | _ => raise e
          end).

(** [{"question": ..., "intent": ..., **thread_data}]: the entries of
    [thread_data] win over the two fixed ones. *)
Definition ingest_payload (thread_data : gmap string value) : gmap string value :=
  thread_data ∪ <["question" := VStr "Ingest this thread"]>
                (<["intent" := VStr "ingest"]> ∅).

Definition send_to_knowledge_agent (thread_data : gmap string value) : Eff value :=
  let payload := VDict (ingest_payload thread_data) in
  try_except
    (response ← call (RequestsPost (endpoint self) payload 30)
                     (requests_post w (endpoint self) payload 30);
     lift (raise_for_status response);;
     lift (json response))
    (λ e, match e with
          | RequestException _ =>
              emit (Print ("Error sending to Knowledge Agent: " +:+ exn_str e));;
              raise e
          | _ => raise e
          end).

Definition ingest_thread (channel_id thread_ts : value) : Eff value :=
  print_line (fetching_line channel_id thread_ts);;
  thread_data ← fetch_thread channel_id thread_ts;
  messages ← lift (py_getitem (VDict thread_data) "messages");
  n ← lift (py_len messages);
  emit (Print ("Sending " +:+ py_format rt (VInt n) +:+
               " messages to Knowledge Agent..."));;
  result ← send_to_knowledge_agent thread_data;
  added ← lift (py_get result "memories_added" (VInt 0));
  emit (Print ("✅ Success! " +:+ py_format rt added +:+ " memories created"));;
  ret result.

Definition post_confirmation (channel_id thread_ts memories_count : value)
  : Eff unit :=
  let text := "✅ Thread ingested to knowledge base! Created " +:+
              py_format rt memories_count +:+ " memories." in
  try_except
    (call (ChatPostMessage channel_id thread_ts text)
          (chat_postMessage w channel_id thread_ts text);;
     ret tt)
    (λ e, match e with
          | SlackApiError _ error =>
              emit (Print ("Error posting confirmation: " +:+ py_format rt error))
          | _ => raise e
          end).

(** ** The Flask handlers *)

(** What a view function returns: a status code and a JSON body. *)
Record FlaskResponse : Type := {
  status : Z;
  body : value
}.

(** [jsonify(d)], status 200 unless the view says otherwise *)
Definition jsonify (d : gmap string value) : FlaskResponse :=
  {| status := 200; body := VDict d |}.

(** [a or b], with [b] evaluated only when [a] is falsy *)
Definition py_or (a : value) (b : exn + value) : exn + value :=
  if py_truthy a then inr a else b.

(** [obj.get("thread_ts") or obj.get("ts")] *)
Definition thread_ts_of (obj : value) : exn + value :=
  match py_get obj "thread_ts" VNone with
  | inl e => inl e
  | inr a => py_or a (py_get obj "ts" VNone)
  end.

(** [POST /slack/events]; [data] is [request.json]. *)
Definition slack_events (data : value) : Eff FlaskResponse :=
  has_challenge ← lift (py_contains "challenge" data);
  if has_challenge : bool then
    challenge ← lift (py_getitem data "challenge");
    ret (jsonify (<["challenge" := challenge]> ∅))
  else
    has_event ← lift (py_contains "event" data);
    (if has_event : bool then
       ev ← lift (py_getitem data "event");
       type ← lift (py_get ev "type" VNone);
       if is_str "app_mention" type then
         channel_id ← lift (py_get ev "channel" VNone);
         thread_ts ← lift (thread_ts_of ev);
         text0 ← lift (py_get ev "text" (VStr ""));
         text ← lift (py_lower text0);
         if str_contains "ingest" text || str_contains "save" text then
           try_except
             (result ← ingest_thread channel_id thread_ts;
              added ← lift (py_get result "memories_added" (VInt 0));
              post_confirmation channel_id thread_ts added)
             (λ e, emit (Print ("Error processing thread: " +:+ exn_str e)))
         else ret tt
       else ret tt
     else ret tt);;
    ret (jsonify (<["status" := VStr "ok"]> ∅)).

(** [POST /slack/shortcuts]; [form] is [request.form]. *)
Definition slack_shortcuts (form : gmap string string) : Eff FlaskResponse :=
  match form !! "payload" with
  | None | Some EmptyString =>
      ret {| status := 400; body := VDict (<["error" := VStr "No payload"]> ∅) |}
  | Some payload =>
      data ← lift (json_loads rt payload);
      type ← lift (py_get data "type" VNone);
      if is_str "shortcut" type then
        message ← lift (py_get data "message" (VDict ∅));
        channel ← lift (py_getitem data "channel");
        channel_id ← lift (py_getitem channel "id");
        thread_ts ← lift (thread_ts_of message);
        try_except
          (result ← ingest_thread channel_id thread_ts;
           added ← lift (py_get result "memories_added" (VInt 0));
           ret (jsonify (<["text" := VStr ("✅ Thread saved! Created " +:+
                                           py_format rt added +:+ " memories.")]> ∅)))
          (λ e, ret {| status := 500;
                       body := VDict (<["text" := VStr ("❌ Error: " +:+ exn_str e)]> ∅) |})
      else
        ret (jsonify (<["status" := VStr "ok"]> ∅))
  end.

End Integrator.

(** ** Reading a trace *)

(** The thread fetches, as (channel, thread timestamp) *)
Definition fetch_calls (tr : list event) : list (value * value) :=
  omap (λ ev, match ev with
              | ConversationsReplies channel ts => Some (channel, ts)
              | _ => None
              end) tr.

(** The calls to the Knowledge Agent, as (endpoint, JSON body, timeout) *)
Definition forward_calls (tr : list event) : list (string * value * Z) :=
  omap (λ ev, match ev with
              | RequestsPost ep payload timeout => Some (ep, payload, timeout)
              | _ => None
              end) tr.

(** The confirmations posted, as (channel, thread timestamp, text) *)
Definition confirm_calls (tr : list event) : list (value * value * string) :=
  omap (λ ev, match ev with
              | ChatPostMessage channel ts text => Some (channel, ts, text)
              | _ => None
              end) tr.

(** What send_to_knowledge_agent makes of the answer to its POST: the
    exception of the transport, of the status check or of the decoding, or
    else the decoded body. *)
Definition forward_outcome (w : World) (ep : string) (payload : value)
  : exn + value :=
  match requests_post w ep payload 30 with
  | inl e => inl e
  | inr response =>
      match raise_for_status response with
      | inl e => inl e
      | inr _ => json response
      end
  end.

(** ** Parts of the handlers that the statements below refer to *)

Section Parts.

Context (rt : Runtime) (w : World) (self : SlackToKnowledgeAgent).

(** The text posted by [post_confirmation] *)
Definition confirmation_text (memories_count : value) : string :=
  "✅ Thread ingested to knowledge base! Created " +:+
  py_format rt memories_count +:+ " memories.".

(** The [try] statement of [slack_events] and that of [slack_shortcuts] *)
Definition events_try (channel_id thread_ts : value) : Eff unit :=
  try_except
    (result ← ingest_thread rt w self channel_id thread_ts;
     added ← lift (py_get result "memories_added" (VInt 0));
     post_confirmation rt w channel_id thread_ts added)
    (λ e, emit (Print ("Error processing thread: " +:+ exn_str e))).

Definition shortcuts_try (channel_id thread_ts : value) : Eff FlaskResponse :=
  try_except
    (result ← ingest_thread rt w self channel_id thread_ts;
     added ← lift (py_get result "memories_added" (VInt 0));
     ret (jsonify (<["text" := VStr ("✅ Thread saved! Created " +:+
                                     py_format rt added +:+ " memories.")]> ∅)))
    (λ e, ret {| status := 500;
                 body := VDict (<["text" := VStr ("❌ Error: " +:+ exn_str e)]> ∅) |}).

(** The value of [obj.get("thread_ts") or obj.get("ts")] on a dict *)
Definition thread_ts_or_ts (obj : gmap string value) : value :=
  match obj !! "thread_ts" with
  | Some t => if py_truthy t then t else default VNone (obj !! "ts")
  | None => default VNone (obj !! "ts")
  end.

End Parts.

(** ** The module-level configuration and the command line entry point *)

(** [os.getenv("KNOWLEDGE_AGENT_URL", "http://localhost:8081")] *)
Definition KNOWLEDGE_AGENT_URL (env : gmap string string) : string :=
  default "http://localhost:8081" (env !! "KNOWLEDGE_AGENT_URL").

(** [SlackToKnowledgeAgent(os.getenv("SLACK_BOT_TOKEN"), KNOWLEDGE_AGENT_URL)],
    built at import time and again by the command line branch. *)
Definition integrator (env : gmap string string) : SlackToKnowledgeAgent :=
  init (env !! "SLACK_BOT_TOKEN") (KNOWLEDGE_AGENT_URL env).




(** ** The two answers of the shortcuts handler's [try] statement *)

(** The answer to a shortcut whose pipeline returned [result] *)
Definition saved_response (rt : Runtime) (result : value) : FlaskResponse :=
  jsonify (<["text" :=
             VStr ("✅ Thread saved! Created " +:+
                   py_format rt (match result with
                                 | VDict r => default (VInt 0) (r !! "memories_added")
                                 | _ => VInt 0
                                 end) +:+
                   " memories.")]> ∅).

(** The answer to a shortcut whose pipeline raised [e] *)
Definition error_response (e : exn) : FlaskResponse :=
  {| status := 500;
     body := VDict (<["text" := VStr ("❌ Error: " +:+ exn_str e)]> ∅) |}.

(** ** More ways of reading a trace *)

Definition is_print (ev : event) : bool :=
  match ev with
  | Print _ => true
  | _ => false
  end.

(** The calls to the outside, in order, without what was printed *)
Definition calls (tr : list event) : list event :=
  List.filter (λ ev, negb (is_print ev)) tr.

(** A message as [fetch_thread] hands it on: a dict with exactly the four
    fields. *)
Definition is_message (v : value) : Prop :=
  ∃ m : gmap string value,
    v = VDict m ∧ dom m = {["user"; "text"; "ts"; "type"]}.

Definition is_dict (v : value) : bool :=
  match v with
  | VDict _ => true
  | _ => false
  end.

(** ** Sample runtime, worlds and requests, used to run the model *)

Module Demo.

Definition dq : string := String (ascii_of_nat 34) EmptyString.

(** [{"type": "shortcut"}] and [{"type": "view_submission"}] *)
Definition doc_shortcut : string :=
  "{" +:+ dq +:+ "type" +:+ dq +:+ ": " +:+ dq +:+ "shortcut" +:+ dq +:+ "}".
Definition doc_view : string :=
  "{" +:+ dq +:+ "type" +:+ dq +:+ ": " +:+ dq +:+ "view_submission" +:+ dq +:+ "}".
(** [{"type": "shortcut", "channel": {"id": "C1"}, "message": {"ts": "1.5"}}] *)
Definition doc_full : string :=
  "{" +:+ dq +:+ "type" +:+ dq +:+ ": " +:+ dq +:+ "shortcut" +:+ dq +:+ ", " +:+
  dq +:+ "channel" +:+ dq +:+ ": {" +:+ dq +:+ "id" +:+ dq +:+ ": " +:+
  dq +:+ "C1" +:+ dq +:+ "}, " +:+
  dq +:+ "message" +:+ dq +:+ ": {" +:+ dq +:+ "ts" +:+ dq +:+ ": " +:+
  dq +:+ "1.5" +:+ dq +:+ "}}".

(** The code point U+D800, a lone surrogate, as the three bytes a
    surrogate-passing encoder gives it: a JSON body can carry it
    (["\ud800"]), a UTF-8 standard output cannot write it. *)
Definition lone_surrogate : string :=
  String (ascii_of_nat 237) (String (ascii_of_nat 160)
         (String (ascii_of_nat 128) EmptyString)).

(** A runtime that formats strings as themselves, decodes the three
    documents above and writes to a UTF-8 standard output. *)
Definition runtime : Runtime :=
  {| py_format := λ v, match v with
                       | VStr s => s
                       | VNone => "None"
                       | VInt 0 => "0"
                       | VInt 2 => "2"
                       | _ => "?"
                       end;
     json_loads := λ s,
       if String.eqb s doc_shortcut then
         inr (VDict (<["type" := VStr "shortcut"]> ∅))
       else if String.eqb s doc_view then
         inr (VDict (<["type" := VStr "view_submission"]> ∅))
       else if String.eqb s doc_full then
         inr (VDict (<["type" := VStr "shortcut"]>
                    (<["channel" := VDict (<["id" := VStr "C1"]> ∅)]>
                    (<["message" := VDict (<["ts" := VStr "1.5"]> ∅)]> ∅))))
       else inl (OtherException "Expecting value");
     stdout_error := λ line,
       if str_contains lone_surrogate line
       then Some (OtherException "'utf-8' codec can't encode character: surrogates not allowed")
       else None |}.

(** Two raw messages, the second with no field at all *)
Definition raw_messages : list (gmap string value) :=
  [ <["user" := VStr "U1"]> (<["text" := VStr "hello"]>
    (<["ts" := VStr "1.5"]> (<["team" := VStr "T1"]> ∅))) ; ∅ ].

Definition replies : value :=
  VDict (<["ok" := VBool true]>
        (<["messages" := VList (VDict <$> raw_messages)]> ∅)).

Definition ok_response (code : Z) : HttpResponse :=
  {| status_code := code;
     http_error_msg := "";
     json := inr (VDict (<["memories_added" := VInt 2]> ∅)) |}.

(** Every service answers *)
Definition world_ok : World :=
  {| conversations_replies := λ _ _, inr replies;
     chat_postMessage := λ _ _ _, inr (VDict (<["ok" := VBool true]> ∅));
     requests_post := λ _ _ _, inr (ok_response 200) |}.

(** The thread cannot be read *)
Definition world_no_thread : World :=
  {| conversations_replies := λ _ _,
       inl (SlackApiError "The request to the Slack API failed."
                          (VStr "channel_not_found"));
     chat_postMessage := chat_postMessage world_ok;
     requests_post := requests_post world_ok |}.

(** The Knowledge Agent cannot be reached *)
Definition world_agent_down : World :=
  {| conversations_replies := conversations_replies world_ok;
     chat_postMessage := chat_postMessage world_ok;
     requests_post := λ _ _ _, inl (RequestException "Connection refused") |}.

(** The Knowledge Agent answers with the status 300 and a JSON body *)
Definition world_agent_300 : World :=
  {| conversations_replies := conversations_replies world_ok;
     chat_postMessage := chat_postMessage world_ok;
     requests_post := λ _ _ _, inr (ok_response 300) |}.

(** The Knowledge Agent answers 200 with a body that is not JSON *)
Definition world_agent_not_json : World :=
  {| conversations_replies := conversations_replies world_ok;
     chat_postMessage := chat_postMessage world_ok;
     requests_post := λ _ _ _,
       inr {| status_code := 200; http_error_msg := "";
              json := inl (RequestException "Expecting value: line 1 column 1 (char 0)") |} |}.

(** Posting the confirmation fails in the transport, below the Slack API *)
Definition world_confirm_unreachable : World :=
  {| conversations_replies := conversations_replies world_ok;
     chat_postMessage := λ _ _ _, inl (OtherException "<urlopen error timed out>");
     requests_post := requests_post world_ok |}.


Definition integrator : SlackToKnowledgeAgent :=
  init (Some "xoxb-test") "http://localhost:8081".

(** An [app_mention] asking for ingestion *)
Definition mention (thread_ts : option value) : gmap string value :=
  let ev := <["type" := VStr "app_mention"]> (<["channel" := VStr "C1"]>
            (<["ts" := VStr "1.5"]> (<["text" := VStr "please Ingest this"]> ∅))) in
  match thread_ts with
  | Some t => <["thread_ts" := t]> ev
  | None => ev
  end.

Definition mention_request (thread_ts : option value) : gmap string value :=
  <["event" := VDict (mention thread_ts)]> ∅.

Definition thread_data : gmap string value :=
  <["thread_ts" := VStr "1.5"]> (<["channel_id" := VStr "C1"]>
  (<["messages" := VList []]> ∅)).

(** The thread [fetch_thread] builds from [replies] *)
Definition fetched_thread : gmap string value :=
  <["thread_ts" := VStr "1.5"]> (<["channel_id" := VStr "C1"]>
  (<["messages" :=
       VList [VDict (<["user" := VStr "U1"]> (<["text" := VStr "hello"]>
                    (<["ts" := VStr "1.5"]> (<["type" := VStr "message"]> ∅))));
              VDict (<["user" := VStr "unknown"]> (<["text" := VStr ""]>
                    (<["ts" := VStr ""]> (<["type" := VStr "message"]> ∅))))]]>
   ∅)).

(** A thread whose second item is not an object *)
Definition world_bad_item : World :=
  {| conversations_replies := λ _ _,
       inr (VDict (<["messages" := VList [VDict ∅; VStr "oops"]]> ∅));
     chat_postMessage := chat_postMessage world_ok;
     requests_post := requests_post world_ok |}.

(** An answer of the Slack API without a [messages] field *)
Definition world_no_messages : World :=
  {| conversations_replies := λ _ _, inr (VDict (<["ok" := VBool true]> ∅));
     chat_postMessage := chat_postMessage world_ok;
     requests_post := requests_post world_ok |}.

(** The Knowledge Agent answers 200 with a JSON array *)
Definition world_agent_array : World :=
  {| conversations_replies := conversations_replies world_ok;
     chat_postMessage := chat_postMessage world_ok;
     requests_post := λ _ _ _,
       inr {| status_code := 200; http_error_msg := "";
              json := inr (VList [VInt 2]) |} |}.

(** An [app_mention] with the given [text] field *)
Definition mention_with_text (text : value) : gmap string value :=
  <["event" := VDict (<["type" := VStr "app_mention"]>
                     (<["channel" := VStr "C1"]>
                     (<["ts" := VStr "1.5"]> (<["text" := text]> ∅))))]> ∅.

(** An [app_mention] with a keyword, in the given channel *)
Definition mention_in (channel : value) : gmap string value :=
  <["type" := VStr "app_mention"]> (<["channel" := channel]>
  (<["ts" := VStr "1.5"]> (<["text" := VStr "please Ingest this"]> ∅))).

Definition env : gmap string string :=
  <["SLACK_BOT_TOKEN" := "xoxb-test"]>
  (<["KNOWLEDGE_AGENT_URL" := "http://agent:8081/"]> ∅).

End Demo.

(** * Properties *)

(** ** Outcome and trace of the monad's operations *)

Section EffLaws.

Context {A B : Type}.

Lemma outcome_bind (m : Eff A) (k : A → Eff B) :
  outcome (m ≫= k) =
  match outcome m with inl e => inl e | inr a => outcome (k a) end.
Proof. unfold mbind, eff_bind, bind, outcome. by destruct m as [[e|a] tr]. Qed.

Lemma trace_bind (m : Eff A) (k : A → Eff B) :
  trace (m ≫= k) =
  match outcome m with inl _ => trace m | inr a => trace m ++ trace (k a) end.
Proof. unfold mbind, eff_bind, bind, outcome, trace. by destruct m as [[e|a] tr]. Qed.

Lemma outcome_try_except (m : Eff A) (h : exn → Eff A) :
  outcome (try_except m h) =
  match outcome m with inl e => outcome (h e) | inr a => inr a end.
Proof. unfold try_except, outcome. by destruct m as [[e|a] tr]. Qed.

Lemma trace_try_except (m : Eff A) (h : exn → Eff A) :
  trace (try_except m h) =
  match outcome m with inl e => trace m ++ trace (h e) | inr _ => trace m end.
Proof. unfold try_except, outcome, trace. by destruct m as [[e|a] tr]. Qed.

End EffLaws.

(** Push [outcome] and [trace] through the monad's operations. *)
Ltac eff_simpl :=
  repeat (rewrite ?outcome_try_except, ?trace_try_except,
            ?outcome_bind, ?trace_bind;
          cbn [outcome trace lift call emit ret raise fst snd app]).

(** The loop of [fetch_thread] can only fail on a message that is not a
    dict. *)
Lemma message_of_error (msg : value) (e : exn) :
  message_of msg = inl e → ∃ s, e = AttributeError s.
Proof.
  unfold message_of, py_get. destruct msg; intros [= <-]; by eexists.
Qed.

Lemma append_messages_error (raw acc : list value) (e : exn) :
  append_messages raw acc = inl e → ∃ s, e = AttributeError s.
Proof.
  revert acc. induction raw as [|msg raw IH]; intros acc; simpl; [done|].
  destruct (message_of msg) as [e'|m] eqn:Hm.
  - intros [= <-]. by eapply message_of_error.
  - apply IH.
Qed.

(** Then split on the innermost answer that decides how the run goes on. *)
Ltac eff_case :=
  eff_simpl;
  match goal with
  | |- context [match ?x with _ => _ end] =>
      lazymatch x with
      | context [match _ with _ => _ end] => fail
      | _ => destruct x eqn:?
      end
  end;
  try match goal with
      | H : append_messages _ _ = inl _ |- _ =>
          apply append_messages_error in H as [? ->]
      end;
  eff_simpl; simplify_eq; try done.

(** ** Reading the calls off a composed trace *)

Lemma fetch_calls_app tr1 tr2 :
  fetch_calls (tr1 ++ tr2) = fetch_calls tr1 ++ fetch_calls tr2.
Proof. apply omap_app. Qed.

Lemma forward_calls_app tr1 tr2 :
  forward_calls (tr1 ++ tr2) = forward_calls tr1 ++ forward_calls tr2.
Proof. apply omap_app. Qed.

Lemma confirm_calls_app tr1 tr2 :
  confirm_calls (tr1 ++ tr2) = confirm_calls tr1 ++ confirm_calls tr2.
Proof. apply omap_app. Qed.

Lemma fetch_calls_print line tr : fetch_calls (Print line :: tr) = fetch_calls tr.
Proof. done. Qed.

Lemma forward_calls_print line tr :
  forward_calls (Print line :: tr) = forward_calls tr.
Proof. done. Qed.

Lemma confirm_calls_print line tr :
  confirm_calls (Print line :: tr) = confirm_calls tr.
Proof. done. Qed.

Lemma fetch_calls_nil : fetch_calls [] = [].
Proof. done. Qed.

Lemma forward_calls_nil : forward_calls [] = [].
Proof. done. Qed.

Lemma confirm_calls_nil : confirm_calls [] = [].
Proof. done. Qed.

Create Rewrite HintDb calls.
#[global] Hint Rewrite fetch_calls_app forward_calls_app confirm_calls_app
  fetch_calls_print forward_calls_print confirm_calls_print
  fetch_calls_nil forward_calls_nil confirm_calls_nil
  @app_nil_r @app_nil_l : calls.

(** ** [rstrip] *)

Lemma rstrip_slashes_only (n : nat) : rstrip "/" (str_repeat "/" n) = "".
Proof. induction n as [|n IH]; simpl; [done|]. by rewrite IH. Qed.

Lemma rstrip_decompose (s : string) :
  ∃ n, s = rstrip "/" s +:+ str_repeat "/" n.
Proof.
  induction s as [|c s [n IH]]; [by exists 0%nat|].
  simpl. destruct (rstrip "/" s) as [|a r] eqn:Hr.
  - unfold ascii_mem; simpl. rewrite orb_false_r.
    destruct (Ascii.eqb_spec c "/") as [->|_].
    + exists (S n). by rewrite IH at 1.
    + exists n. by rewrite IH at 1.
  - exists n. by rewrite IH at 1.
Qed.

Lemma rstrip_no_trailing_slash (s : string) :
  ends_with "/" (rstrip "/" s) = false.
Proof.
  induction s as [|c s IH]; [done|].
  simpl. destruct (rstrip "/" s) as [|a r] eqn:Hr.
  - unfold ascii_mem; simpl. rewrite orb_false_r.
    destruct (Ascii.eqb c "/") eqn:Hc; simpl; [done|]. exact Hc.
  - exact IH.
Qed.

Lemma rstrip_app_slashes (s : string) (n : nat) :
  rstrip "/" (s +:+ str_repeat "/" n) = rstrip "/" s.
Proof.
  induction s as [|c s IH]; simpl.
  - apply rstrip_slashes_only.
  - by rewrite IH.
Qed.

Section Methods.

Context (rt : Runtime) (w : World) (self : SlackToKnowledgeAgent).

(** ** [fetch_thread] *)

Lemma append_messages_dicts (raws : list (gmap string value)) (acc : list value) :
  append_messages (VDict <$> raws) acc =
  inr (acc ++ ((λ raw : gmap string value,
                  VDict (<["user" := default (VStr "unknown") (raw !! "user")]>
                        (<["text" := default (VStr "") (raw !! "text")]>
                        (<["ts" := default (VStr "") (raw !! "ts")]>
                        (<["type" := default (VStr "message") (raw !! "type")]> ∅)))))
               <$> raws)).
Proof.
  revert acc. induction raws as [|raw raws IH]; intros acc; simpl.
  - by rewrite app_nil_r.
  - rewrite IH. by rewrite <- app_assoc.
Qed.

Lemma fetch_thread_trace (channel_id thread_ts : value) :
  trace (fetch_thread rt w channel_id thread_ts) =
  ConversationsReplies channel_id thread_ts ::
  match conversations_replies w channel_id thread_ts with
  | inl (SlackApiError _ error) =>
      [Print ("Error fetching thread: " +:+ py_format rt error)]
  | _ => []
  end.
Proof. unfold fetch_thread, slack_response_getitem, py_iter. repeat eff_case. Qed.

Lemma fetch_thread_ok (channel_id thread_ts : value) (td : gmap string value) :
  outcome (fetch_thread rt w channel_id thread_ts) = inr td →
  ∃ messages,
    td = <["thread_ts" := thread_ts]> (<["channel_id" := channel_id]>
         (<["messages" := VList messages]> ∅)).
Proof.
  unfold fetch_thread, slack_response_getitem, py_iter. repeat eff_case.
  all: intros [= <-]; by eexists.
Qed.

(** ** [send_to_knowledge_agent] *)

Lemma ingest_payload_lookup (td : gmap string value) (k : string) :
  ingest_payload td !! k =
  match td !! k with
  | Some v => Some v
  | None =>
      if decide (k = "question") then Some (VStr "Ingest this thread")
      else if decide (k = "intent") then Some (VStr "ingest")
      else None
  end.
Proof.
  unfold ingest_payload. destruct (td !! k) as [v|] eqn:Htd.
  - by apply lookup_union_Some_l.
  - rewrite lookup_union_r by done.
    repeat case_decide; by simplify_map_eq.
Qed.

(** When the thread has no [question] and no [intent] entry of its own, the
    body is the thread with these two entries added. *)
Lemma ingest_payload_spread (td : gmap string value) :
  td !! "question" = None →
  td !! "intent" = None →
  ingest_payload td =
  <["question" := VStr "Ingest this thread"]> (<["intent" := VStr "ingest"]> td).
Proof.
  intros Hq Hi. apply map_eq. intros k. rewrite ingest_payload_lookup.
  destruct (decide (k = "question")) as [->|Hkq].
  { by rewrite Hq, lookup_insert_eq. }
  rewrite (lookup_insert_ne _ "question") by done.
  destruct (decide (k = "intent")) as [->|Hki].
  { by rewrite Hi, lookup_insert_eq. }
  rewrite (lookup_insert_ne _ "intent") by done.
  by destruct (td !! k).
Qed.

Lemma send_to_knowledge_agent_outcome (td : gmap string value) :
  outcome (send_to_knowledge_agent w self td) =
  forward_outcome w (endpoint self) (VDict (ingest_payload td)).
Proof.
  unfold send_to_knowledge_agent, forward_outcome, raise_for_status.
  repeat eff_case.
Qed.

Lemma send_to_knowledge_agent_trace (td : gmap string value) :
  trace (send_to_knowledge_agent w self td) =
  RequestsPost (endpoint self) (VDict (ingest_payload td)) 30 ::
  match forward_outcome w (endpoint self) (VDict (ingest_payload td)) with
  | inl (RequestException msg) =>
      [Print ("Error sending to Knowledge Agent: " +:+ msg)]
  | _ => []
  end.
Proof.
  unfold send_to_knowledge_agent, forward_outcome, raise_for_status.
  repeat eff_case.
Qed.

Lemma send_to_knowledge_agent_calls (td : gmap string value) :
  fetch_calls (trace (send_to_knowledge_agent w self td)) = [] ∧
  forward_calls (trace (send_to_knowledge_agent w self td)) =
    [(endpoint self, VDict (ingest_payload td), 30)] ∧
  confirm_calls (trace (send_to_knowledge_agent w self td)) = [].
Proof. rewrite send_to_knowledge_agent_trace. by repeat case_match. Qed.

Lemma fetch_thread_calls (channel_id thread_ts : value) :
  fetch_calls (trace (fetch_thread rt w channel_id thread_ts)) =
    [(channel_id, thread_ts)] ∧
  forward_calls (trace (fetch_thread rt w channel_id thread_ts)) = [] ∧
  confirm_calls (trace (fetch_thread rt w channel_id thread_ts)) = [].
Proof. rewrite fetch_thread_trace. by repeat case_match. Qed.

(** ** [ingest_thread] *)

Lemma thread_data_messages (thread_ts channel_id messages : value) :
  py_getitem (VDict (<["thread_ts" := thread_ts]> (<["channel_id" := channel_id]>
                    (<["messages" := messages]> ∅)))) "messages"
  = inr messages.
Proof. unfold py_getitem. by simplify_map_eq. Qed.

(** The pipeline stops at once when its first line cannot be printed. *)
Lemma ingest_thread_unprintable (channel_id thread_ts : value) (e : exn) :
  stdout_error rt (fetching_line rt channel_id thread_ts) = Some e →
  ingest_thread rt w self channel_id thread_ts = (inl e, []).
Proof. intros He. unfold ingest_thread, print_line. by rewrite He. Qed.

Lemma ingest_thread_outcome (channel_id thread_ts : value) :
  outcome (ingest_thread rt w self channel_id thread_ts) =
  match stdout_error rt (fetching_line rt channel_id thread_ts) with
  | Some e => inl e
  | None =>
      match outcome (fetch_thread rt w channel_id thread_ts) with
      | inl e => inl e
      | inr td =>
          match forward_outcome w (endpoint self) (VDict (ingest_payload td)) with
          | inl e => inl e
          | inr result =>
              match py_get result "memories_added" (VInt 0) with
              | inl e => inl e
              | inr _ => inr result
              end
          end
      end
  end.
Proof.
  destruct (stdout_error rt (fetching_line rt channel_id thread_ts)) as [e|] eqn:Hp.
  { by rewrite (ingest_thread_unprintable _ _ e). }
  unfold ingest_thread, print_line. rewrite Hp. eff_simpl.
  destruct (outcome (fetch_thread rt w channel_id thread_ts)) as [e|td] eqn:Hf;
    [done|].
  apply fetch_thread_ok in Hf as [messages ->].
  rewrite thread_data_messages. unfold py_len. eff_simpl.
  rewrite send_to_knowledge_agent_outcome.
  by repeat eff_case.
Qed.

Lemma ingest_thread_calls (channel_id thread_ts : value) :
  fetch_calls (trace (ingest_thread rt w self channel_id thread_ts)) =
    match stdout_error rt (fetching_line rt channel_id thread_ts) with
    | Some _ => []
    | None => [(channel_id, thread_ts)]
    end ∧
  forward_calls (trace (ingest_thread rt w self channel_id thread_ts)) =
    match stdout_error rt (fetching_line rt channel_id thread_ts) with
    | Some _ => []
    | None =>
        match outcome (fetch_thread rt w channel_id thread_ts) with
        | inl _ => []
        | inr td => [(endpoint self, VDict (ingest_payload td), 30)]
        end
    end ∧
  confirm_calls (trace (ingest_thread rt w self channel_id thread_ts)) = [].
Proof.
  destruct (stdout_error rt (fetching_line rt channel_id thread_ts)) as [e|] eqn:Hp.
  { by rewrite (ingest_thread_unprintable _ _ e). }
  unfold ingest_thread, print_line. rewrite Hp. eff_simpl.
  destruct (fetch_thread_calls channel_id thread_ts) as (Hf1 & Hf2 & Hf3).
  destruct (outcome (fetch_thread rt w channel_id thread_ts)) as [e|td] eqn:Hf.
  { autorewrite with calls. by rewrite Hf1, Hf2, Hf3. }
  apply fetch_thread_ok in Hf as [messages ->].
  rewrite thread_data_messages. unfold py_len. eff_simpl.
  set (td := <["thread_ts" := thread_ts]> _).
  destruct (send_to_knowledge_agent_calls td) as (Hs1 & Hs2 & Hs3).
  destruct (outcome (send_to_knowledge_agent w self td)) as [e|result];
    repeat eff_case;
    autorewrite with calls; by rewrite Hf1, Hf2, Hf3, Hs1, Hs2, Hs3.
Qed.

(** ** [post_confirmation] *)

Lemma post_confirmation_trace (channel_id thread_ts memories_count : value) :
  trace (post_confirmation rt w channel_id thread_ts memories_count) =
  ChatPostMessage channel_id thread_ts (confirmation_text rt memories_count) ::
  match chat_postMessage w channel_id thread_ts
          (confirmation_text rt memories_count) with
  | inl (SlackApiError _ error) =>
      [Print ("Error posting confirmation: " +:+ py_format rt error)]
  | _ => []
  end.
Proof. unfold post_confirmation, confirmation_text. repeat eff_case. Qed.

Lemma post_confirmation_calls (channel_id thread_ts memories_count : value) :
  fetch_calls (trace (post_confirmation rt w channel_id thread_ts memories_count))
    = [] ∧
  forward_calls (trace (post_confirmation rt w channel_id thread_ts memories_count))
    = [] ∧
  confirm_calls (trace (post_confirmation rt w channel_id thread_ts memories_count))
    = [(channel_id, thread_ts, confirmation_text rt memories_count)].
Proof. rewrite post_confirmation_trace. by repeat case_match. Qed.

(** ** The [try] statements of the two handlers *)

(** The events handler swallows whatever its [try] block raises. *)
Lemma events_try_outcome (channel_id thread_ts : value) :
  outcome (events_try rt w self channel_id thread_ts) = inr tt.
Proof.
  unfold events_try. eff_simpl.
  destruct (outcome (ingest_thread rt w self channel_id thread_ts)); [done|].
  repeat eff_case. by destruct u.
Qed.

Lemma events_try_calls (channel_id thread_ts : value) :
  fetch_calls (trace (events_try rt w self channel_id thread_ts)) =
    match stdout_error rt (fetching_line rt channel_id thread_ts) with
    | Some _ => []
    | None => [(channel_id, thread_ts)]
    end ∧
  forward_calls (trace (events_try rt w self channel_id thread_ts)) =
    match stdout_error rt (fetching_line rt channel_id thread_ts) with
    | Some _ => []
    | None =>
        match outcome (fetch_thread rt w channel_id thread_ts) with
        | inl _ => []
        | inr td => [(endpoint self, VDict (ingest_payload td), 30)]
        end
    end.
Proof.
  unfold events_try. eff_simpl.
  destruct (ingest_thread_calls channel_id thread_ts) as (Hi1 & Hi2 & _).
  destruct (outcome (ingest_thread rt w self channel_id thread_ts)) as [e|result].
  { autorewrite with calls. by rewrite Hi1, Hi2. }
  eff_simpl.
  destruct (py_get result "memories_added" (VInt 0)) as [e|added].
  { autorewrite with calls. by rewrite Hi1, Hi2. }
  destruct (post_confirmation_calls channel_id thread_ts added) as (Hp1 & Hp2 & _).
  destruct (outcome (post_confirmation rt w channel_id thread_ts added));
    autorewrite with calls; by rewrite Hi1, Hi2, Hp1, Hp2, ?app_nil_r.
Qed.

Lemma shortcuts_try_trace (channel_id thread_ts : value) :
  trace (shortcuts_try rt w self channel_id thread_ts) =
  trace (ingest_thread rt w self channel_id thread_ts).
Proof.
  unfold shortcuts_try. eff_simpl.
  destruct (outcome (ingest_thread rt w self channel_id thread_ts)) as [e|result].
  { by rewrite app_nil_r. }
  repeat eff_case; by rewrite ?app_nil_r.
Qed.

Lemma shortcuts_try_raised (channel_id thread_ts : value) (e : exn) :
  outcome (ingest_thread rt w self channel_id thread_ts) = inl e →
  outcome (shortcuts_try rt w self channel_id thread_ts) =
  inr {| status := 500;
         body := VDict (<["text" := VStr ("❌ Error: " +:+ exn_str e)]> ∅) |}.
Proof. intros He. unfold shortcuts_try. eff_simpl. by rewrite He. Qed.

(** ** Evaluating [obj.get("thread_ts") or obj.get("ts")] on a dict *)

Lemma thread_ts_of_dict (obj : gmap string value) :
  thread_ts_of (VDict obj) = inr (thread_ts_or_ts obj).
Proof.
  unfold thread_ts_of, thread_ts_or_ts, py_or, py_get.
  by destruct (obj !! "thread_ts") as [t|]; simpl; [destruct (py_truthy t)|].
Qed.

End Methods.

(** ** Python operations on dicts *)

Lemma py_contains_present (d : gmap string value) (k : string) (v : value) :
  d !! k = Some v → py_contains k (VDict d) = inr true.
Proof. intros H. unfold py_contains. by rewrite H. Qed.

Lemma py_contains_absent (d : gmap string value) (k : string) :
  d !! k = None → py_contains k (VDict d) = inr false.
Proof. intros H. unfold py_contains. by rewrite H. Qed.

Lemma py_getitem_present (d : gmap string value) (k : string) (v : value) :
  d !! k = Some v → py_getitem (VDict d) k = inr v.
Proof. intros H. unfold py_getitem. by rewrite H. Qed.

Lemma py_getitem_absent (d : gmap string value) (k : string) :
  d !! k = None → py_getitem (VDict d) k = inl (KeyError k).
Proof. intros H. unfold py_getitem. by rewrite H. Qed.

Lemma slack_response_getitem_present
    (d : gmap string value) (k : string) (v : value) :
  d !! k = Some v → slack_response_getitem (VDict d) k = inr v.
Proof. intros H. unfold slack_response_getitem. by rewrite H. Qed.

Lemma slack_response_getitem_absent (d : gmap string value) (k : string) :
  d !! k = None → slack_response_getitem (VDict d) k = inr VNone.
Proof. intros H. unfold slack_response_getitem. by rewrite H. Qed.

Lemma py_get_dict (d : gmap string value) (k : string) (dflt : value) :
  py_get (VDict d) k dflt = inr (default dflt (d !! k)).
Proof. done. Qed.

Lemma is_str_true (s : string) (v : value) : is_str s v = true ↔ v = VStr s.
Proof.
  destruct v; simpl; try (split; [discriminate|congruence]).
  rewrite String.eqb_eq. split; congruence.
Qed.

Lemma is_str_same (s : string) : is_str s (VStr s) = true.
Proof. by apply is_str_true. Qed.

(** ** Sequencing after a step whose answer is known *)

Lemma bind_lift_inr {A B} (a : A) (k : A → Eff B) : (lift (inr a) ≫= k) = k a.
Proof.
  unfold mbind, eff_bind, bind, lift. simpl. by destruct (k a).
Qed.

Lemma bind_lift_inl {A B} (e : exn) (k : A → Eff B) :
  (lift (inl e) ≫= k) = raise e.
Proof. done. Qed.

(** ** The handlers, path by path *)

Section Handlers.

Context (rt : Runtime) (w : World) (self : SlackToKnowledgeAgent).

(** A mention that asks for ingestion reaches the [try] statement. *)
Lemma slack_events_triggered (d ev : gmap string value) (text : string) :
  d !! "challenge" = None →
  d !! "event" = Some (VDict ev) →
  ev !! "type" = Some (VStr "app_mention") →
  ev !! "text" = Some (VStr text) →
  str_contains "ingest" (str_lower text) || str_contains "save" (str_lower text)
    = true →
  slack_events rt w self (VDict d) =
  (events_try rt w self (default VNone (ev !! "channel")) (thread_ts_or_ts ev);;
   ret (jsonify (<["status" := VStr "ok"]> ∅))).
Proof.
  intros Hc He Hty Htext Htrig. unfold slack_events.
  rewrite (py_contains_absent _ _ Hc), bind_lift_inr.
  rewrite (py_contains_present _ _ _ He), bind_lift_inr.
  rewrite (py_getitem_present _ _ _ He), bind_lift_inr.
  rewrite !py_get_dict, bind_lift_inr, Hty, is_str_same.
  rewrite bind_lift_inr, thread_ts_of_dict, bind_lift_inr, Htext.
  rewrite bind_lift_inr. cbn [from_option id py_lower].
  rewrite bind_lift_inr, Htrig.
  reflexivity.
Qed.

(** Either the events handler has no effect at all, or it runs its [try]
    statement and then answers. *)
Lemma slack_events_cases (data : value) :
  trace (slack_events rt w self data) = [] ∨
  ∃ channel_id thread_ts,
    slack_events rt w self data =
    (events_try rt w self channel_id thread_ts;;
     ret (jsonify (<["status" := VStr "ok"]> ∅))).
Proof.
  unfold slack_events.
  destruct (py_contains "challenge" data) as [e|[]];
    rewrite ?bind_lift_inl, ?bind_lift_inr; [by left| |].
  { destruct (py_getitem data "challenge");
      rewrite ?bind_lift_inl, ?bind_lift_inr; by left. }
  destruct (py_contains "event" data) as [e|[]];
    rewrite ?bind_lift_inl, ?bind_lift_inr; [by left| |by left].
  destruct (py_getitem data "event") as [e|ev];
    rewrite ?bind_lift_inl, ?bind_lift_inr; [by left|].
  destruct (py_get ev "type" VNone) as [e|ty];
    rewrite ?bind_lift_inl, ?bind_lift_inr; [by left|].
  destruct (is_str "app_mention" ty); [|by left].
  destruct (py_get ev "channel" VNone) as [e|channel_id];
    rewrite ?bind_lift_inl, ?bind_lift_inr; [by left|].
  destruct (thread_ts_of ev) as [e|thread_ts];
    rewrite ?bind_lift_inl, ?bind_lift_inr; [by left|].
  destruct (py_get ev "text" (VStr "")) as [e|text0];
    rewrite ?bind_lift_inl, ?bind_lift_inr; [by left|].
  destruct (py_lower text0) as [e|text];
    rewrite ?bind_lift_inl, ?bind_lift_inr; [by left|].
  destruct (str_contains "ingest" text || str_contains "save" text);
    [right; by eauto|by left].
Qed.

(** Likewise for the shortcuts handler. *)
Lemma slack_shortcuts_cases (form : gmap string string) :
  trace (slack_shortcuts rt w self form) = [] ∨
  ∃ channel_id thread_ts,
    slack_shortcuts rt w self form = shortcuts_try rt w self channel_id thread_ts.
Proof.
  unfold slack_shortcuts.
  destruct (form !! "payload") as [[|c payload]|]; [by left| |by left].
  destruct (json_loads rt (String c payload)) as [e|data];
    rewrite ?bind_lift_inl, ?bind_lift_inr; [by left|].
  destruct (py_get data "type" VNone) as [e|ty];
    rewrite ?bind_lift_inl, ?bind_lift_inr; [by left|].
  destruct (is_str "shortcut" ty); [|by left].
  destruct (py_get data "message" (VDict ∅)) as [e|message];
    rewrite ?bind_lift_inl, ?bind_lift_inr; [by left|].
  destruct (py_getitem data "channel") as [e|channel];
    rewrite ?bind_lift_inl, ?bind_lift_inr; [by left|].
  destruct (py_getitem channel "id") as [e|channel_id];
    rewrite ?bind_lift_inl, ?bind_lift_inr; [by left|].
  destruct (thread_ts_of message) as [e|thread_ts];
    rewrite ?bind_lift_inl, ?bind_lift_inr; [by left|].
  right; by eauto.
Qed.

(** A request to the Knowledge Agent found in the trace of the pipeline is
    the one built from the thread that was fetched, after the first line
    was printed. *)
Lemma ingest_thread_forwarded (channel_id thread_ts : value)
    (ep : string) (payload : value) (timeout : Z) :
  RequestsPost ep payload timeout
    ∈ trace (ingest_thread rt w self channel_id thread_ts) →
  stdout_error rt (fetching_line rt channel_id thread_ts) = None ∧
  ∃ td, outcome (fetch_thread rt w channel_id thread_ts) = inr td ∧
        ep = endpoint self ∧ payload = VDict (ingest_payload td) ∧ timeout = 30.
Proof.
  intros Hin.
  assert ((ep, payload, timeout)
            ∈ forward_calls (trace (ingest_thread rt w self channel_id thread_ts)))
    as Hf.
  { apply list_elem_of_omap. by exists (RequestsPost ep payload timeout). }
  destruct (ingest_thread_calls rt w self channel_id thread_ts) as (_ & Hfw & _).
  rewrite Hfw in Hf.
  destruct (stdout_error rt (fetching_line rt channel_id thread_ts)) as [e|].
  { by apply elem_of_nil in Hf. }
  split; [done|].
  destruct (outcome (fetch_thread rt w channel_id thread_ts)) as [e|td].
  - by apply elem_of_nil in Hf.
  - apply list_elem_of_singleton in Hf as [= -> -> ->]. by exists td.
Qed.

End Handlers.

(** ** Sample runs *)

Example rstrip_localhost :
  rstrip "/" "http://localhost:8081//" = "http://localhost:8081" ∧
  rstrip "/" "http://agent/v1/" = "http://agent/v1" ∧
  rstrip "/" "///" = "".
Proof. repeat split. Qed.

Example lower_keyword :
  str_lower "Please SAVE it" = "please save it" ∧
  str_contains "save" (str_lower "Please SAVE it") = true ∧
  str_contains "ingest" (str_lower "hello there") = false.
Proof. repeat split. Qed.

(** A mention with the keyword, every service answering: the pipeline runs
    once and the confirmation is posted. *)
Example run_mention :
  slack_events Demo.runtime Demo.world_ok Demo.integrator
    (VDict (Demo.mention_request None)) =
  (inr {| status := 200; body := VDict (<["status" := VStr "ok"]> ∅) |},
   [Print "Fetching thread 1.5 from channel C1...";
    ConversationsReplies (VStr "C1") (VStr "1.5");
    Print "Sending 2 messages to Knowledge Agent...";
    RequestsPost "http://localhost:8081/api/query"
      (VDict (<["question" := VStr "Ingest this thread"]>
             (<["intent" := VStr "ingest"]> Demo.fetched_thread))) 30;
    Print "✅ Success! 2 memories created";
    ChatPostMessage (VStr "C1") (VStr "1.5")
      "✅ Thread ingested to knowledge base! Created 2 memories."]).
Proof. vm_compute. reflexivity. Qed.

(** A mention without the keyword: nothing happens, the answer is the
    same. *)
Example run_mention_without_keyword :
  slack_events Demo.runtime Demo.world_ok Demo.integrator
    (VDict (<["event" := VDict (<["type" := VStr "app_mention"]>
                               (<["channel" := VStr "C1"]>
                               (<["ts" := VStr "1.5"]>
                               (<["text" := VStr "hello there"]> ∅))))]> ∅)) =
  (inr {| status := 200; body := VDict (<["status" := VStr "ok"]> ∅) |}, []).
Proof. vm_compute. reflexivity. Qed.

(** A mention in a channel whose name the standard output cannot write:
    the pipeline stops at its first line, the handler reports the error
    and answers as usual. *)
Example run_mention_unprintable_channel :
  slack_events Demo.runtime Demo.world_ok Demo.integrator
    (VDict (<["event" := VDict (Demo.mention_in (VStr Demo.lone_surrogate))]> ∅)) =
  (inr {| status := 200; body := VDict (<["status" := VStr "ok"]> ∅) |},
   [Print "Error processing thread: 'utf-8' codec can't encode character: surrogates not allowed"]).
Proof. vm_compute. reflexivity. Qed.

(** The shortcut, with the Knowledge Agent down *)
Example run_shortcut_agent_down :
  slack_shortcuts Demo.runtime Demo.world_agent_down Demo.integrator
    (<["payload" := Demo.doc_full]> ∅) =
  (inr {| status := 500;
          body := VDict (<["text" := VStr "❌ Error: Connection refused"]> ∅) |},
   [Print "Fetching thread 1.5 from channel C1...";
    ConversationsReplies (VStr "C1") (VStr "1.5");
    Print "Sending 2 messages to Knowledge Agent...";
    RequestsPost "http://localhost:8081/api/query"
      (VDict (<["question" := VStr "Ingest this thread"]>
             (<["intent" := VStr "ingest"]> Demo.fetched_thread))) 30;
    Print "Error sending to Knowledge Agent: Connection refused"]).
Proof. vm_compute. reflexivity. Qed.

(** * The specification's statements *)

(** C1. When the platform API returns a list of raw messages, [fetch_thread]
    returns a thread whose [messages] list has the same length and order:
    its i-th element is built from the i-th raw message and holds exactly
    the fields [user], [text], [ts] and [type], each taken from the raw
    message when present and otherwise defaulted to ["unknown"], [""], [""]
    and ["message"]. *)
Theorem fetch_thread_preserves_messages
    (rt : Runtime) (w : World) (channel_id thread_ts : value)
    (result : gmap string value) (raws : list (gmap string value)) :
  conversations_replies w channel_id thread_ts = inr (VDict result) →
  result !! "messages" = Some (VList (VDict <$> raws)) →
  ∃ messages : list value,
    outcome (fetch_thread rt w channel_id thread_ts) =
      inr (<["thread_ts" := thread_ts]> (<["channel_id" := channel_id]>
          (<["messages" := VList messages]> ∅))) ∧
    length messages = length raws ∧
    ∀ (i : nat) (raw : gmap string value),
      raws !! i = Some raw →
      ∃ m : gmap string value,
        messages !! i = Some (VDict m) ∧
        m !! "user" = Some (default (VStr "unknown") (raw !! "user")) ∧
        m !! "text" = Some (default (VStr "") (raw !! "text")) ∧
        m !! "ts" = Some (default (VStr "") (raw !! "ts")) ∧
        m !! "type" = Some (default (VStr "message") (raw !! "type")) ∧
        dom m = {["user"; "text"; "ts"; "type"]}.
Proof.
  intros Hcall Hmsgs. eexists. split; [|split].
  - unfold fetch_thread. eff_simpl. rewrite Hcall. eff_simpl.
    rewrite (slack_response_getitem_present _ _ _ Hmsgs). eff_simpl.
    unfold py_iter. rewrite append_messages_dicts. eff_simpl.
    reflexivity.
  - by rewrite length_fmap.
  - intros i raw Hi. eexists. split.
    + rewrite list_lookup_fmap, Hi. reflexivity.
    + repeat split; by simplify_map_eq.
Qed.

Lemma fetch_thread_preserves_messages_witness :
  ∃ messages : list value,
    outcome (fetch_thread Demo.runtime Demo.world_ok (VStr "C1") (VStr "1.5")) =
      inr (<["thread_ts" := VStr "1.5"]> (<["channel_id" := VStr "C1"]>
          (<["messages" := VList messages]> ∅))) ∧
    length messages = length Demo.raw_messages ∧
    ∀ (i : nat) (raw : gmap string value),
      Demo.raw_messages !! i = Some raw →
      ∃ m : gmap string value,
        messages !! i = Some (VDict m) ∧
        m !! "user" = Some (default (VStr "unknown") (raw !! "user")) ∧
        m !! "text" = Some (default (VStr "") (raw !! "text")) ∧
        m !! "ts" = Some (default (VStr "") (raw !! "ts")) ∧
        m !! "type" = Some (default (VStr "message") (raw !! "type")) ∧
        dom m = {["user"; "text"; "ts"; "type"]}.
Proof.
  apply (fetch_thread_preserves_messages Demo.runtime Demo.world_ok
           (VStr "C1") (VStr "1.5")
           (<["ok" := VBool true]>
              (<["messages" := VList (VDict <$> Demo.raw_messages)]> ∅))
           Demo.raw_messages).
  - reflexivity.
  - vm_compute. reflexivity.
Defined.

(** C5. An events request whose body has a [challenge] field with value X
    is answered with exactly [{challenge: X}], and nothing else happens: no
    fetch, no forward, no confirmation, not even a [print] -- whatever else
    the body holds. *)
Theorem slack_events_challenge
    (rt : Runtime) (w : World) (self : SlackToKnowledgeAgent)
    (d : gmap string value) (X : value) :
  d !! "challenge" = Some X →
  slack_events rt w self (VDict d) =
  (inr {| status := 200; body := VDict (<["challenge" := X]> ∅) |}, []).
Proof.
  intros Hc. unfold slack_events.
  rewrite (py_contains_present _ _ _ Hc), bind_lift_inr.
  rewrite (py_getitem_present _ _ _ Hc), bind_lift_inr.
  reflexivity.
Qed.

Lemma slack_events_challenge_witness :
  slack_events Demo.runtime Demo.world_ok Demo.integrator
    (VDict (<["challenge" := VStr "X"]> (Demo.mention_request None))) =
  (inr {| status := 200; body := VDict (<["challenge" := VStr "X"]> ∅) |}, []).
Proof.
  apply (slack_events_challenge Demo.runtime Demo.world_ok Demo.integrator
           (<["challenge" := VStr "X"]> (Demo.mention_request None)) (VStr "X")).
  vm_compute. reflexivity.
Defined.

(** C6. A shortcuts request whose form has no [payload] field, or an empty
    one, is answered with status 400 and the body [{error: "No payload"}],
    and nothing else happens. *)
Theorem slack_shortcuts_no_payload
    (rt : Runtime) (w : World) (self : SlackToKnowledgeAgent)
    (form : gmap string string) :
  form !! "payload" = None ∨ form !! "payload" = Some "" →
  slack_shortcuts rt w self form =
  (inr {| status := 400; body := VDict (<["error" := VStr "No payload"]> ∅) |},
   []).
Proof. intros [H|H]; unfold slack_shortcuts; by rewrite H. Qed.

Lemma slack_shortcuts_no_payload_witness :
  slack_shortcuts Demo.runtime Demo.world_ok Demo.integrator
    (<["token" := "t"]> ∅) =
  (inr {| status := 400; body := VDict (<["error" := VStr "No payload"]> ∅) |},
   []).
Proof.
  apply (slack_shortcuts_no_payload Demo.runtime Demo.world_ok Demo.integrator
           (<["token" := "t"]> ∅)).
  left. vm_compute. reflexivity.
Defined.

(** C8. A shortcuts request whose payload decodes to an object of type
    ["shortcut"] that has no [channel] key, or whose [channel] is an object
    without an [id] key, makes the handler raise a [KeyError] before its
    [try] statement: nothing has been printed or called, and no response,
    in particular not the 500 one with an error text, is returned. *)
Theorem slack_shortcuts_missing_channel_raises
    (rt : Runtime) (w : World) (self : SlackToKnowledgeAgent)
    (form : gmap string string) (payload : string) (d : gmap string value) :
  form !! "payload" = Some payload →
  payload ≠ "" →
  json_loads rt payload = inr (VDict d) →
  d !! "type" = Some (VStr "shortcut") →
  d !! "channel" = None ∨
    (∃ c : gmap string value, d !! "channel" = Some (VDict c) ∧ c !! "id" = None) →
  (∃ key, slack_shortcuts rt w self form = (inl (KeyError key), [])) ∧
  ∀ response, outcome (slack_shortcuts rt w self form) ≠ inr response.
Proof.
  intros Hform Hne Hjson Hty Hch.
  assert (∃ key, slack_shortcuts rt w self form = (inl (KeyError key), []))
    as [key Hkey].
  { unfold slack_shortcuts. rewrite Hform.
    destruct payload as [|a payload]; [done|].
    rewrite Hjson, bind_lift_inr, !py_get_dict, !bind_lift_inr, Hty, is_str_same.
    destruct Hch as [Hch|(c & Hch & Hid)].
    - exists "channel". by rewrite (py_getitem_absent _ _ Hch).
    - exists "id". rewrite (py_getitem_present _ _ _ Hch), bind_lift_inr.
      by rewrite (py_getitem_absent _ _ Hid). }
  split; [by exists key|]. intros response. by rewrite Hkey.
Qed.

Lemma slack_shortcuts_missing_channel_raises_witness :
  (∃ key, slack_shortcuts Demo.runtime Demo.world_ok Demo.integrator
            (<["payload" := Demo.doc_shortcut]> ∅) = (inl (KeyError key), [])) ∧
  ∀ response,
    outcome (slack_shortcuts Demo.runtime Demo.world_ok Demo.integrator
               (<["payload" := Demo.doc_shortcut]> ∅)) ≠ inr response.
Proof.
  apply (slack_shortcuts_missing_channel_raises Demo.runtime Demo.world_ok
           Demo.integrator (<["payload" := Demo.doc_shortcut]> ∅)
           Demo.doc_shortcut (<["type" := VStr "shortcut"]> ∅)).
  - vm_compute. reflexivity.
  - vm_compute. discriminate.
  - vm_compute. reflexivity.
  - vm_compute. reflexivity.
  - left. vm_compute. reflexivity.
Defined.

(** C9. A shortcuts request with a non-empty payload that decodes to an
    object whose [type] is not ["shortcut"] (or is absent) has no effect at
    all and is answered with status 200 and the body [{status: "ok"}], a
    body with neither a [text] nor an [error] field. *)
Theorem slack_shortcuts_other_type
    (rt : Runtime) (w : World) (self : SlackToKnowledgeAgent)
    (form : gmap string string) (payload : string) (d : gmap string value) :
  form !! "payload" = Some payload →
  payload ≠ "" →
  json_loads rt payload = inr (VDict d) →
  d !! "type" ≠ Some (VStr "shortcut") →
  ∃ b : gmap string value,
    slack_shortcuts rt w self form = (inr {| status := 200; body := VDict b |}, []) ∧
    b = <["status" := VStr "ok"]> ∅ ∧
    b !! "text" = None ∧ b !! "error" = None.
Proof.
  intros Hform Hne Hjson Hty.
  exists (<["status" := VStr "ok"]> ∅). split; [|done].
  unfold slack_shortcuts. rewrite Hform.
  destruct payload as [|a payload]; [done|].
  rewrite Hjson, bind_lift_inr, !py_get_dict, !bind_lift_inr.
  destruct (is_str "shortcut" (default VNone (d !! "type"))) eqn:His; [|done].
  apply is_str_true in His. destruct (d !! "type"); simplify_eq/=.
Qed.

Lemma slack_shortcuts_other_type_witness :
  ∃ b : gmap string value,
    slack_shortcuts Demo.runtime Demo.world_ok Demo.integrator
      (<["payload" := Demo.doc_view]> ∅)
    = (inr {| status := 200; body := VDict b |}, []) ∧
    b = <["status" := VStr "ok"]> ∅ ∧
    b !! "text" = None ∧ b !! "error" = None.
Proof.
  apply (slack_shortcuts_other_type Demo.runtime Demo.world_ok Demo.integrator
           (<["payload" := Demo.doc_view]> ∅) Demo.doc_view
           (<["type" := VStr "view_submission"]> ∅)).
  - vm_compute. reflexivity.
  - vm_compute. discriminate.
  - vm_compute. reflexivity.
  - vm_compute. discriminate.
Defined.

(** C10. The constructor strips every trailing ['/'] of
    [knowledge_agent_url]: the stored base does not end in ['/'] and the
    configured URL is that base followed by slashes only. The endpoint the
    forwarder posts to is the stripped base followed by ["/api/query"], so
    URLs that differ only in trailing slashes give the same endpoint. *)
Theorem init_strips_trailing_slashes
    (w : World) (slack_token : option string) (url : string)
    (thread_data : gmap string value) :
  ends_with "/" (knowledge_agent_url (init slack_token url)) = false ∧
  (∃ n, url = knowledge_agent_url (init slack_token url) +:+ str_repeat "/" n) ∧
  endpoint (init slack_token url) = rstrip "/" url +:+ "/api/query" ∧
  (∃ payload,
     forward_calls
       (trace (send_to_knowledge_agent w (init slack_token url) thread_data)) =
     [(rstrip "/" url +:+ "/api/query", payload, 30)]) ∧
  ∀ (slack_token' : option string) (n m : nat),
    endpoint (init slack_token (url +:+ str_repeat "/" n)) =
    endpoint (init slack_token' (url +:+ str_repeat "/" m)).
Proof.
  split; [apply rstrip_no_trailing_slash|].
  split; [apply rstrip_decompose|].
  split; [done|].
  split.
  - eexists. apply send_to_knowledge_agent_calls.
  - intros tok' n m. unfold endpoint, init. simpl.
    by rewrite !rstrip_app_slashes.
Qed.




(** C4, as the code has it. For a thread with the fields [thread_ts],
    [channel_id] and [messages], [send_to_knowledge_agent] makes one POST,
    to the base URL followed by ["/api/query"], with a timeout of 30 and a
    JSON body made of the thread's three fields together with
    [question = "Ingest this thread"] and [intent = "ingest"]. It raises
    what the POST raises, raises when the status code is in 400..599,
    raises what decoding the body raises, and otherwise returns the decoded
    body. *)
Theorem send_to_knowledge_agent_contract
    (w : World) (self : SlackToKnowledgeAgent)
    (thread_ts channel_id : value) (messages : list value) :
  let thread_data : gmap string value :=
    <["thread_ts" := thread_ts]> (<["channel_id" := channel_id]>
    (<["messages" := VList messages]> ∅)) in
  let body :=
    VDict (<["question" := VStr "Ingest this thread"]>
          (<["intent" := VStr "ingest"]> thread_data)) in
  let url := knowledge_agent_url self +:+ "/api/query" in
  forward_calls (trace (send_to_knowledge_agent w self thread_data)) =
    [(url, body, 30)] ∧
  outcome (send_to_knowledge_agent w self thread_data) =
    match requests_post w url body 30 with
    | inl e => inl e
    | inr response =>
        if (400 <=? status_code response) && (status_code response <? 600)
        then inl (RequestException (http_error_msg response))
        else json response
    end.
Proof.
  intros thread_data body url.
  assert (VDict (ingest_payload thread_data) = body) as Hbody.
  { unfold body. by rewrite ingest_payload_spread. }
  split.
  - destruct (send_to_knowledge_agent_calls w self thread_data) as (_ & H & _).
    by rewrite H, Hbody.
  - rewrite send_to_knowledge_agent_outcome, Hbody.
    unfold forward_outcome, raise_for_status.
    change (endpoint self) with url.
    destruct (requests_post w url body 30) as [e|response]; [done|].
    by destruct (_ && _).
Qed.

(** C4, as stated, fails on both sides of its last sentence: a response
    with status 300, which is not 2xx, does not make the call raise (its
    decoded body is returned), and a 200 response whose body is not JSON
    makes it raise instead of returning. *)
Lemma send_to_knowledge_agent_raises_not_only_on_non_2xx :
  (status_code (Demo.ok_response 300) = 300 ∧
   requests_post Demo.world_agent_300 (endpoint Demo.integrator)
     (VDict (ingest_payload Demo.thread_data)) 30 = inr (Demo.ok_response 300) ∧
   outcome (send_to_knowledge_agent Demo.world_agent_300 Demo.integrator
              Demo.thread_data)
     = inr (VDict (<["memories_added" := VInt 2]> ∅))) ∧
  ((∃ response,
      requests_post Demo.world_agent_not_json (endpoint Demo.integrator)
        (VDict (ingest_payload Demo.thread_data)) 30 = inr response ∧
      status_code response = 200) ∧
   outcome (send_to_knowledge_agent Demo.world_agent_not_json Demo.integrator
              Demo.thread_data)
     = inl (RequestException "Expecting value: line 1 column 1 (char 0)")).
Proof.
  repeat split; try (vm_compute; reflexivity).
  eexists. split; vm_compute; reflexivity.
Qed.

(** C2, as the code has it. An events request whose body is an object
    without a [challenge] key, with an [event] of type ["app_mention"] whose
    text, lowercased, contains ["ingest"] or ["save"], starts the pipeline
    for the event's [channel] and for its [thread_ts] when that is present
    and truthy, its [ts] otherwise. The pipeline first prints these two;
    when the standard output cannot write that line, nothing is fetched or
    forwarded. Otherwise exactly one fetch call is made, for that channel
    and thread timestamp; when the fetch returns a thread, exactly one
    forward call follows, whose body carries the same channel and thread
    timestamp; when the fetch raises, nothing is forwarded. *)
Theorem slack_events_mention_fetches_then_forwards
    (rt : Runtime) (w : World) (self : SlackToKnowledgeAgent)
    (d ev : gmap string value) (text : string) :
  d !! "challenge" = None →
  d !! "event" = Some (VDict ev) →
  ev !! "type" = Some (VStr "app_mention") →
  ev !! "text" = Some (VStr text) →
  str_contains "ingest" (str_lower text) || str_contains "save" (str_lower text)
    = true →
  let channel := default VNone (ev !! "channel") in
  let thread_ts := thread_ts_or_ts ev in
  let tr := trace (slack_events rt w self (VDict d)) in
  match stdout_error rt (fetching_line rt channel thread_ts) with
  | Some _ => fetch_calls tr = [] ∧ forward_calls tr = []
  | None =>
      fetch_calls tr = [(channel, thread_ts)] ∧
      match outcome (fetch_thread rt w channel thread_ts) with
      | inl _ => forward_calls tr = []
      | inr _ =>
          ∃ payload : gmap string value,
            forward_calls tr = [(endpoint self, VDict payload, 30)] ∧
            payload !! "channel_id" = Some channel ∧
            payload !! "thread_ts" = Some thread_ts
      end
  end.
Proof.
  intros Hc He Hty Htext Htrig channel thread_ts tr. unfold tr.
  rewrite (slack_events_triggered rt w self d ev text) by done.
  fold channel thread_ts. eff_simpl. rewrite events_try_outcome.
  autorewrite with calls.
  destruct (events_try_calls rt w self channel thread_ts) as [Hf Hfw].
  rewrite Hf, Hfw.
  destruct (stdout_error rt (fetching_line rt channel thread_ts)); [done|].
  split; [done|].
  destruct (outcome (fetch_thread rt w channel thread_ts)) as [e|td] eqn:Hfetch;
    [done|].
  apply fetch_thread_ok in Hfetch as [messages ->].
  eexists. split; [reflexivity|].
  rewrite !ingest_payload_lookup. by simplify_map_eq.
Qed.

Lemma slack_events_mention_fetches_then_forwards_witness :
  let tr := trace (slack_events Demo.runtime Demo.world_ok Demo.integrator
                     (VDict (Demo.mention_request (Some (VStr "1.0"))))) in
  fetch_calls tr = [(VStr "C1", VStr "1.0")] ∧
  ∃ payload : gmap string value,
    forward_calls tr = [(endpoint Demo.integrator, VDict payload, 30)] ∧
    payload !! "channel_id" = Some (VStr "C1") ∧
    payload !! "thread_ts" = Some (VStr "1.0").
Proof.
  apply (slack_events_mention_fetches_then_forwards Demo.runtime Demo.world_ok
           Demo.integrator (Demo.mention_request (Some (VStr "1.0")))
           (Demo.mention (Some (VStr "1.0"))) "please Ingest this").
  - vm_compute. reflexivity.
  - vm_compute. reflexivity.
  - vm_compute. reflexivity.
  - vm_compute. reflexivity.
  - vm_compute. reflexivity.
Defined.

(** C2, as stated, fails in four ways. A body that also has a [challenge]
    field triggers no call at all; when the fetch raises, no forward call
    follows it; a [thread_ts] that is present but empty is not the
    timestamp used: the event's [ts] is; and when the channel holds a
    character that the standard output cannot write, the pipeline stops at
    its first [print] and nothing is fetched. *)
Lemma slack_events_mention_not_always_one_fetch_one_forward :
  let is_mention (d ev : gmap string value) :=
    d !! "event" = Some (VDict ev) ∧
    ev !! "type" = Some (VStr "app_mention") ∧
    ev !! "channel" = Some (VStr "C1") ∧
    ev !! "text" = Some (VStr "please Ingest this") ∧
    str_contains "ingest" (str_lower "please Ingest this") = true in
  (let d := <["challenge" := VStr "X"]> (Demo.mention_request None) in
   let tr := trace (slack_events Demo.runtime Demo.world_ok Demo.integrator
                      (VDict d)) in
   is_mention d (Demo.mention None) ∧
   fetch_calls tr = [] ∧ forward_calls tr = []) ∧
  (let d := Demo.mention_request None in
   let tr := trace (slack_events Demo.runtime Demo.world_no_thread
                      Demo.integrator (VDict d)) in
   is_mention d (Demo.mention None) ∧
   fetch_calls tr = [(VStr "C1", VStr "1.5")] ∧ forward_calls tr = []) ∧
  (let ev := Demo.mention (Some (VStr "")) in
   let d := Demo.mention_request (Some (VStr "")) in
   let tr := trace (slack_events Demo.runtime Demo.world_ok Demo.integrator
                      (VDict d)) in
   is_mention d ev ∧
   ev !! "thread_ts" = Some (VStr "") ∧ ev !! "ts" = Some (VStr "1.5") ∧
   fetch_calls tr = [(VStr "C1", VStr "1.5")] ∧
   fetch_calls tr ≠ [(VStr "C1", VStr "")]) ∧
  (let ev := Demo.mention_in (VStr Demo.lone_surrogate) in
   let d : gmap string value := <["event" := VDict ev]> ∅ in
   let tr := trace (slack_events Demo.runtime Demo.world_ok Demo.integrator
                      (VDict d)) in
   (d !! "event" = Some (VDict ev) ∧
    ev !! "type" = Some (VStr "app_mention") ∧
    ev !! "channel" = Some (VStr Demo.lone_surrogate) ∧
    ev !! "text" = Some (VStr "please Ingest this") ∧
    str_contains "ingest" (str_lower "please Ingest this") = true) ∧
   fetch_calls tr = [] ∧ forward_calls tr = []).
Proof.
  repeat split; try (vm_compute; reflexivity).
  vm_compute. discriminate.
Qed.

(** C3. Take a request during which [send_to_knowledge_agent] is called,
    for some thread, and raises [e] (in the transport, in the status check
    or while decoding the answer). The shortcuts endpoint answers it with
    status 500 and a body whose [text] is the error mark followed by
    [str(e)]. The events endpoint answers with status 200 and
    [{status: "ok"}], and does so whenever the call is made, raised or
    not. *)
Theorem knowledge_agent_failure_responses
    (rt : Runtime) (w : World) (self : SlackToKnowledgeAgent)
    (thread_data : gmap string value) :
  let post := RequestsPost (endpoint self) (VDict (ingest_payload thread_data)) 30 in
  (∀ (form : gmap string string) (e : exn),
     post ∈ trace (slack_shortcuts rt w self form) →
     outcome (send_to_knowledge_agent w self thread_data) = inl e →
     outcome (slack_shortcuts rt w self form) =
     inr {| status := 500;
            body := VDict (<["text" := VStr ("❌ Error: " +:+ exn_str e)]> ∅) |}) ∧
  (∀ data : value,
     post ∈ trace (slack_events rt w self data) →
     outcome (slack_events rt w self data) =
     inr {| status := 200; body := VDict (<["status" := VStr "ok"]> ∅) |}).
Proof.
  intros post. split.
  - intros form e Hin He. rewrite send_to_knowledge_agent_outcome in He.
    destruct (slack_shortcuts_cases rt w self form) as [Hnil|(c & t & Heq)].
    { rewrite Hnil in Hin. by apply elem_of_nil in Hin. }
    rewrite Heq in Hin |- *. rewrite shortcuts_try_trace in Hin.
    apply ingest_thread_forwarded
      in Hin as (Hprint & td & Hfetch & _ & Hpayload & _).
    apply shortcuts_try_raised.
    by rewrite ingest_thread_outcome, Hprint, Hfetch, <- Hpayload, He.
  - intros data Hin.
    destruct (slack_events_cases rt w self data) as [Hnil|(c & t & Heq)].
    { rewrite Hnil in Hin. by apply elem_of_nil in Hin. }
    rewrite Heq. eff_simpl. by rewrite events_try_outcome.
Qed.

Lemma knowledge_agent_failure_responses_witness :
  outcome (slack_shortcuts Demo.runtime Demo.world_agent_down Demo.integrator
             (<["payload" := Demo.doc_full]> ∅)) =
  inr {| status := 500;
         body := VDict (<["text" := VStr "❌ Error: Connection refused"]> ∅) |} ∧
  outcome (slack_events Demo.runtime Demo.world_agent_down Demo.integrator
             (VDict (Demo.mention_request None))) =
  inr {| status := 200; body := VDict (<["status" := VStr "ok"]> ∅) |}.
Proof.
  destruct (knowledge_agent_failure_responses Demo.runtime Demo.world_agent_down
              Demo.integrator Demo.fetched_thread) as [Hs He].
  split.
  - apply (Hs (<["payload" := Demo.doc_full]> ∅)
              (RequestException "Connection refused")).
    + vm_compute. do 3 apply list_elem_of_further. apply list_elem_of_here.
    + vm_compute. reflexivity.
  - apply (He (VDict (Demo.mention_request None))).
    vm_compute. do 3 apply list_elem_of_further. apply list_elem_of_here.
Defined.

(** * Further properties of the code *)

(** ** [fetch_thread] *)

Lemma message_of_dict (raw : gmap string value) :
  message_of (VDict raw) =
  inr (VDict (<["user" := default (VStr "unknown") (raw !! "user")]>
             (<["text" := default (VStr "") (raw !! "text")]>
             (<["ts" := default (VStr "") (raw !! "ts")]>
             (<["type" := default (VStr "message") (raw !! "type")]> ∅))))).
Proof. done. Qed.

Lemma message_of_is_message (msg m : value) :
  message_of msg = inr m → is_message m.
Proof.
  destruct msg as [| | | | |raw]; try done.
  rewrite message_of_dict. intros [= <-]. eexists. split; [done|].
  rewrite !dom_insert_L, dom_empty_L. set_solver.
Qed.

Lemma append_messages_keeps_messages (raw acc messages : list value) :
  append_messages raw acc = inr messages →
  Forall is_message acc → Forall is_message messages.
Proof.
  revert acc. induction raw as [|msg raw IH]; intros acc; simpl.
  - by intros [= <-].
  - destruct (message_of msg) as [e|m] eqn:Hm; [done|].
    intros Hrun Hacc. apply (IH _ Hrun).
    apply Forall_app. split; [done|].
    apply Forall_singleton. by eapply message_of_is_message.
Qed.

Lemma append_messages_non_dict (raw acc : list value) :
  (∃ item, item ∈ raw ∧ is_dict item = false) →
  ∃ s, append_messages raw acc = inl (AttributeError s).
Proof.
  revert acc. induction raw as [|msg raw IH]; intros acc (item & Hin & Hitem).
  { by apply elem_of_nil in Hin. }
  simpl. destruct (message_of msg) as [e|m] eqn:Hm.
  - apply message_of_error in Hm as [s ->]. by exists s.
  - apply IH. exists item. split; [|done].
    apply elem_of_cons in Hin as [->|Hin]; [|done].
    by destruct msg.
Qed.



(** X2. A thread is returned whole or not at all: if any item of the
    answer's [messages] list is not an object, [fetch_thread] raises an
    [AttributeError], prints nothing and returns no partial thread. *)
Theorem fetch_thread_rejects_non_dict_item
    (rt : Runtime) (w : World) (channel_id thread_ts : value)
    (result : gmap string value) (items : list value) :
  conversations_replies w channel_id thread_ts = inr (VDict result) →
  result !! "messages" = Some (VList items) →
  (∃ item, item ∈ items ∧ is_dict item = false) →
  ∃ s, fetch_thread rt w channel_id thread_ts =
       (inl (AttributeError s), [ConversationsReplies channel_id thread_ts]).
Proof.
  intros Hcall Hmsgs Hbad.
  destruct (append_messages_non_dict items [] Hbad) as [s Hs]. exists s.
  unfold fetch_thread, try_except, mbind, eff_bind, bind, call, lift.
  rewrite Hcall. simpl. rewrite Hmsgs. simpl. by rewrite Hs.
Qed.

Lemma fetch_thread_rejects_non_dict_item_witness :
  ∃ s, fetch_thread Demo.runtime Demo.world_bad_item (VStr "C1") (VStr "1.5") =
       (inl (AttributeError s), [ConversationsReplies (VStr "C1") (VStr "1.5")]).
Proof.
  apply (fetch_thread_rejects_non_dict_item Demo.runtime Demo.world_bad_item
           (VStr "C1") (VStr "1.5")
           (<["messages" := VList [VDict ∅; VStr "oops"]]> ∅)
           [VDict ∅; VStr "oops"]).
  - reflexivity.
  - vm_compute. reflexivity.
  - exists (VStr "oops"). split; [|reflexivity].
    apply list_elem_of_further, list_elem_of_here.
Defined.

(** X3. When the Slack answer has no [messages] field, indexing it gives
    [None] and the loop over it raises
    [TypeError("'NoneType' object is not iterable")]; this is not a
    [SlackApiError], so nothing is printed, and no thread is returned. *)
Theorem fetch_thread_missing_messages
    (rt : Runtime) (w : World) (channel_id thread_ts : value)
    (result : gmap string value) :
  conversations_replies w channel_id thread_ts = inr (VDict result) →
  result !! "messages" = None →
  fetch_thread rt w channel_id thread_ts =
  (inl (TypeError "'NoneType' object is not iterable"),
   [ConversationsReplies channel_id thread_ts]).
Proof.
  intros Hcall Hmsgs.
  unfold fetch_thread, try_except, mbind, eff_bind, bind, call, lift.
  rewrite Hcall. simpl. by rewrite Hmsgs.
Qed.

Lemma fetch_thread_missing_messages_witness :
  fetch_thread Demo.runtime Demo.world_no_messages (VStr "C1") (VStr "1.5") =
  (inl (TypeError "'NoneType' object is not iterable"),
   [ConversationsReplies (VStr "C1") (VStr "1.5")]).
Proof.
  apply (fetch_thread_missing_messages Demo.runtime Demo.world_no_messages
           (VStr "C1") (VStr "1.5") (<["ok" := VBool true]> ∅)).
  - reflexivity.
  - vm_compute. reflexivity.
Defined.

(** X4. Whatever the Slack API answers, a thread that [fetch_thread]
    returns has exactly the keys [thread_ts], [channel_id] and [messages];
    the first two are the arguments of the call, and every element of
    [messages] is a dict with exactly the fields [user], [text], [ts] and
    [type]. *)
Theorem fetch_thread_returns_thread_data
    (rt : Runtime) (w : World) (channel_id thread_ts : value)
    (td : gmap string value) :
  outcome (fetch_thread rt w channel_id thread_ts) = inr td →
  dom td = {["thread_ts"; "channel_id"; "messages"]} ∧
  td !! "thread_ts" = Some thread_ts ∧
  td !! "channel_id" = Some channel_id ∧
  ∃ messages, td !! "messages" = Some (VList messages) ∧
              Forall is_message messages.
Proof.
  unfold fetch_thread. eff_simpl.
  destruct (conversations_replies w channel_id thread_ts) as [e|result];
    [by destruct e|].
  eff_simpl. destruct (slack_response_getitem result "messages") as [e|raw];
    [by destruct e|].
  eff_simpl. destruct (py_iter raw) as [e|items]; [by destruct e|].
  eff_simpl. destruct (append_messages items []) as [e|messages] eqn:Hrun.
  { apply append_messages_error in Hrun as [s ->]. done. }
  eff_simpl. intros [= <-].
  split; [rewrite !dom_insert_L, dom_empty_L; set_solver|].
  split; [by simplify_map_eq|]. split; [by simplify_map_eq|].
  exists messages. split; [by simplify_map_eq|].
  by apply (append_messages_keeps_messages items []).
Qed.

Lemma fetch_thread_returns_thread_data_witness :
  dom Demo.fetched_thread = {["thread_ts"; "channel_id"; "messages"]} ∧
  Demo.fetched_thread !! "thread_ts" = Some (VStr "1.5") ∧
  Demo.fetched_thread !! "channel_id" = Some (VStr "C1") ∧
  ∃ messages, Demo.fetched_thread !! "messages" = Some (VList messages) ∧
              Forall is_message messages.
Proof.
  apply (fetch_thread_returns_thread_data Demo.runtime Demo.world_ok
           (VStr "C1") (VStr "1.5") Demo.fetched_thread).
  vm_compute. reflexivity.
Defined.

(** ** [send_to_knowledge_agent] and [ingest_thread] *)

(** X5. In the body sent to the Knowledge Agent the entries of the thread
    come last: every entry of [thread_data] is in the body unchanged, even
    one called [question] or [intent], which then replaces the fixed one;
    the fixed entries fill in only where the thread has none; and the body
    has no other key. *)
Theorem ingest_payload_thread_entries_win (thread_data : gmap string value) :
  (∀ k v, thread_data !! k = Some v → ingest_payload thread_data !! k = Some v) ∧
  (thread_data !! "question" = None →
   ingest_payload thread_data !! "question" = Some (VStr "Ingest this thread")) ∧
  (thread_data !! "intent" = None →
   ingest_payload thread_data !! "intent" = Some (VStr "ingest")) ∧
  dom (ingest_payload thread_data) = dom thread_data ∪ {["question"; "intent"]}.
Proof.
  split; [|split; [|split]].
  - intros k v Hk. by rewrite ingest_payload_lookup, Hk.
  - intros Hq. by rewrite ingest_payload_lookup, Hq.
  - intros Hi. by rewrite ingest_payload_lookup, Hi.
  - unfold ingest_payload.
    rewrite dom_union_L, !dom_insert_L, dom_empty_L. set_solver.
Qed.

Lemma ingest_payload_thread_entries_win_witness :
  let td : gmap string value :=
    <["intent" := VStr "query"]> Demo.thread_data in
  ingest_payload td !! "intent" = Some (VStr "query") ∧
  ingest_payload td !! "question" = Some (VStr "Ingest this thread").
Proof.
  intros td.
  destruct (ingest_payload_thread_entries_win td) as (Hwin & Hq & _ & _).
  split.
  - apply Hwin. vm_compute. reflexivity.
  - apply Hq. vm_compute. reflexivity.
Defined.

Lemma calls_app (tr1 tr2 : list event) : calls (tr1 ++ tr2) = calls tr1 ++ calls tr2.
Proof. apply List.filter_app. Qed.

Lemma calls_fetch_thread (rt : Runtime) (w : World) (channel_id thread_ts : value) :
  calls (trace (fetch_thread rt w channel_id thread_ts)) =
  [ConversationsReplies channel_id thread_ts].
Proof. rewrite fetch_thread_trace. by repeat case_match. Qed.

Lemma calls_send_to_knowledge_agent
    (w : World) (self : SlackToKnowledgeAgent) (td : gmap string value) :
  calls (trace (send_to_knowledge_agent w self td)) =
  [RequestsPost (endpoint self) (VDict (ingest_payload td)) 30].
Proof. rewrite send_to_knowledge_agent_trace. by repeat case_match. Qed.

Lemma calls_ingest_thread
    (rt : Runtime) (w : World) (self : SlackToKnowledgeAgent)
    (channel_id thread_ts : value) :
  calls (trace (ingest_thread rt w self channel_id thread_ts)) =
  match stdout_error rt (fetching_line rt channel_id thread_ts) with
  | Some _ => []
  | None =>
      ConversationsReplies channel_id thread_ts ::
      match outcome (fetch_thread rt w channel_id thread_ts) with
      | inl _ => []
      | inr td => [RequestsPost (endpoint self) (VDict (ingest_payload td)) 30]
      end
  end.
Proof.
  destruct (stdout_error rt (fetching_line rt channel_id thread_ts)) as [e|] eqn:Hp.
  { by rewrite (ingest_thread_unprintable _ _ _ _ _ e). }
  unfold ingest_thread, print_line. rewrite Hp. eff_simpl.
  change (calls (?ev :: ?tr)) with (calls tr).
  pose proof (calls_fetch_thread rt w channel_id thread_ts) as Hf.
  destruct (outcome (fetch_thread rt w channel_id thread_ts)) as [e|td] eqn:Hfetch;
    [done|].
  apply fetch_thread_ok in Hfetch as [messages ->].
  rewrite thread_data_messages. unfold py_len. eff_simpl.
  set (td := <["thread_ts" := thread_ts]> _).
  pose proof (calls_send_to_knowledge_agent w self td) as Hs.
  destruct (outcome (send_to_knowledge_agent w self td)) as [e|result];
    repeat eff_case;
    rewrite ?calls_app; cbn [calls List.filter is_print negb];
    fold (calls (trace (send_to_knowledge_agent w self td)));
    rewrite ?calls_app, Hf, Hs; done.
Qed.


(** X6. The pipeline calls the outside in a fixed order. It first prints
    the channel and the thread timestamp; when the standard output cannot
    write that line it calls nothing. Otherwise the thread is fetched, and
    the Knowledge Agent is called next, once, only when the fetch
    returned, with the body built from the fetched thread. Nothing else is
    called - in particular no message is posted to Slack. *)
Theorem ingest_thread_call_order
    (rt : Runtime) (w : World) (self : SlackToKnowledgeAgent)
    (channel_id thread_ts : value) :
  calls (trace (ingest_thread rt w self channel_id thread_ts)) =
  match stdout_error rt (fetching_line rt channel_id thread_ts) with
  | Some _ => []
  | None =>
      ConversationsReplies channel_id thread_ts ::
      match outcome (fetch_thread rt w channel_id thread_ts) with
      | inl _ => []
      | inr td => [RequestsPost (endpoint self) (VDict (ingest_payload td)) 30]
      end
  end ∧
  confirm_calls (trace (ingest_thread rt w self channel_id thread_ts)) = [].
Proof.
  split.
  - apply calls_ingest_thread.
  - apply ingest_thread_calls.
Qed.



(** ** [slack_events] *)

Section EventsHandler.

Context (rt : Runtime) (w : World) (self : SlackToKnowledgeAgent).

(** The handler up to the test of the keywords, for a mention in a body
    without [challenge]. *)
Lemma slack_events_mention (d ev : gmap string value) :
  d !! "challenge" = None →
  d !! "event" = Some (VDict ev) →
  ev !! "type" = Some (VStr "app_mention") →
  slack_events rt w self (VDict d) =
  (text ← lift (py_lower (default (VStr "") (ev !! "text")));
   (if str_contains "ingest" text || str_contains "save" text
    then events_try rt w self (default VNone (ev !! "channel")) (thread_ts_or_ts ev)
    else ret tt);;
   ret (jsonify (<["status" := VStr "ok"]> ∅))).
Proof.
  intros Hc He Hty. unfold slack_events.
  rewrite (py_contains_absent _ _ Hc), bind_lift_inr.
  rewrite (py_contains_present _ _ _ He), bind_lift_inr.
  rewrite (py_getitem_present _ _ _ He), bind_lift_inr.
  rewrite !py_get_dict, bind_lift_inr, Hty, is_str_same.
  rewrite bind_lift_inr, thread_ts_of_dict, bind_lift_inr.
  rewrite bind_lift_inr.
  destruct (py_lower (default (VStr "") (ev !! "text"))) as [e|text];
    rewrite ?bind_lift_inl, ?bind_lift_inr; [done|].
  by destruct (str_contains "ingest" text || str_contains "save" text).
Qed.

(** Every way the handler can run. *)
Lemma slack_events_runs (data : value) :
  (∃ e, slack_events rt w self data = (inl e, [])) ∨
  (∃ X, slack_events rt w self data =
        (inr (jsonify (<["challenge" := X]> ∅)), [])) ∨
  slack_events rt w self data =
    (inr (jsonify (<["status" := VStr "ok"]> ∅)), []) ∨
  ∃ channel_id thread_ts,
    slack_events rt w self data =
    (events_try rt w self channel_id thread_ts;;
     ret (jsonify (<["status" := VStr "ok"]> ∅))).
Proof.
  unfold slack_events.
  destruct (py_contains "challenge" data) as [e|[]];
    rewrite ?bind_lift_inl, ?bind_lift_inr; [left; by eexists| |].
  { destruct (py_getitem data "challenge");
      rewrite ?bind_lift_inl, ?bind_lift_inr;
      [left; by eexists|right; left; by eexists]. }
  destruct (py_contains "event" data) as [e|[]];
    rewrite ?bind_lift_inl, ?bind_lift_inr;
    [left; by eexists| |by right; right; left].
  destruct (py_getitem data "event") as [e|ev];
    rewrite ?bind_lift_inl, ?bind_lift_inr; [left; by eexists|].
  destruct (py_get ev "type" VNone) as [e|ty];
    rewrite ?bind_lift_inl, ?bind_lift_inr; [left; by eexists|].
  destruct (is_str "app_mention" ty); [|by right; right; left].
  destruct (py_get ev "channel" VNone) as [e|channel_id];
    rewrite ?bind_lift_inl, ?bind_lift_inr; [left; by eexists|].
  destruct (thread_ts_of ev) as [e|thread_ts];
    rewrite ?bind_lift_inl, ?bind_lift_inr; [left; by eexists|].
  destruct (py_get ev "text" (VStr "")) as [e|text0];
    rewrite ?bind_lift_inl, ?bind_lift_inr; [left; by eexists|].
  destruct (py_lower text0) as [e|text];
    rewrite ?bind_lift_inl, ?bind_lift_inr; [left; by eexists|].
  destruct (str_contains "ingest" text || str_contains "save" text);
    [right; right; right; by eauto|by right; right; left].
Qed.

Lemma ingest_thread_returns_dict (channel_id thread_ts result : value) :
  outcome (ingest_thread rt w self channel_id thread_ts) = inr result →
  ∃ r : gmap string value, result = VDict r.
Proof.
  rewrite ingest_thread_outcome.
  destruct (stdout_error rt _) as [e|]; [done|].
  destruct (outcome (fetch_thread rt w channel_id thread_ts)) as [e|td]; [done|].
  destruct (forward_outcome w _ _) as [e|answer]; [done|].
  destruct answer; try done. intros [= <-]. by eexists.
Qed.

Lemma events_try_confirm_calls (channel_id thread_ts : value) :
  confirm_calls (trace (events_try rt w self channel_id thread_ts)) =
  match outcome (ingest_thread rt w self channel_id thread_ts) with
  | inr (VDict result) =>
      [(channel_id, thread_ts,
        confirmation_text rt (default (VInt 0) (result !! "memories_added")))]
  | _ => []
  end.
Proof.
  unfold events_try. eff_simpl.
  destruct (ingest_thread_calls rt w self channel_id thread_ts) as (_ & _ & Hi).
  destruct (outcome (ingest_thread rt w self channel_id thread_ts))
    as [e|result] eqn:Hrun.
  { autorewrite with calls. by rewrite Hi. }
  apply ingest_thread_returns_dict in Hrun as [r ->].
  rewrite py_get_dict. eff_simpl.
  destruct (post_confirmation_calls rt w channel_id thread_ts
              (default (VInt 0) (r !! "memories_added"))) as (_ & _ & Hp).
  destruct (outcome (post_confirmation rt w channel_id thread_ts _));
    autorewrite with calls; by rewrite Hi, Hp.
Qed.

End EventsHandler.

Lemma str_lower_app (a b : string) :
  str_lower (a +:+ b) = str_lower a +:+ str_lower b.
Proof.
  induction a as [|c a IH]; [reflexivity|].
  change (String c a +:+ b) with (String c (a +:+ b)).
  cbn [str_lower]. by rewrite IH.
Qed.

Lemma prefix_app (n b : string) : String.prefix n (n +:+ b) = true.
Proof.
  induction n as [|c n IH]; [by destruct b|].
  change (String c n +:+ b) with (String c (n +:+ b)).
  cbn [String.prefix]. by destruct (ascii_dec c c).
Qed.

Lemma str_contains_prefix (n s : string) :
  String.prefix n s = true → str_contains n s = true.
Proof. destruct s; simpl; by intros ->. Qed.

Lemma str_contains_app (a n b : string) :
  str_contains n (a +:+ n +:+ b) = true.
Proof.
  induction a as [|c a IH].
  - change ("" +:+ n +:+ b) with (n +:+ b).
    apply str_contains_prefix, prefix_app.
  - change (String c a +:+ n +:+ b) with (String c (a +:+ n +:+ b)).
    cbn [str_contains]. rewrite IH. apply orb_true_r.
Qed.

(** X8. A mention whose text, lowercased, contains neither keyword (or that
    has no text at all) has no effect whatsoever - no call, nothing
    printed - and is answered with status 200 and [{status: "ok"}]. *)
Theorem slack_events_without_keyword
    (rt : Runtime) (w : World) (self : SlackToKnowledgeAgent)
    (d ev : gmap string value) (text : string) :
  d !! "challenge" = None →
  d !! "event" = Some (VDict ev) →
  ev !! "type" = Some (VStr "app_mention") →
  default (VStr "") (ev !! "text") = VStr text →
  str_contains "ingest" (str_lower text) = false →
  str_contains "save" (str_lower text) = false →
  slack_events rt w self (VDict d) =
  (inr {| status := 200; body := VDict (<["status" := VStr "ok"]> ∅) |}, []).
Proof.
  intros Hc He Hty Htext Hi Hs.
  rewrite (slack_events_mention rt w self d ev) by done.
  rewrite Htext. cbn [py_lower]. rewrite bind_lift_inr, Hi, Hs. reflexivity.
Qed.

Lemma slack_events_without_keyword_witness :
  slack_events Demo.runtime Demo.world_ok Demo.integrator
    (VDict (Demo.mention_with_text (VStr "Hello THERE"))) =
  (inr {| status := 200; body := VDict (<["status" := VStr "ok"]> ∅) |}, []).
Proof.
  apply (slack_events_without_keyword Demo.runtime Demo.world_ok Demo.integrator
           (Demo.mention_with_text (VStr "Hello THERE"))
           (<["type" := VStr "app_mention"]> (<["channel" := VStr "C1"]>
            (<["ts" := VStr "1.5"]> (<["text" := VStr "Hello THERE"]> ∅))))
           "Hello THERE").
  - vm_compute. reflexivity.
  - vm_compute. reflexivity.
  - vm_compute. reflexivity.
  - vm_compute. reflexivity.
  - vm_compute. reflexivity.
  - vm_compute. reflexivity.
Defined.

(** X9. A body without [challenge] that has no [event], or whose event is
    an object of a type other than ["app_mention"] (or with no type), has
    no effect whatsoever and is answered with status 200 and
    [{status: "ok"}]. *)
Theorem slack_events_other_event
    (rt : Runtime) (w : World) (self : SlackToKnowledgeAgent)
    (d : gmap string value) :
  d !! "challenge" = None →
  d !! "event" = None ∨
    (∃ ev : gmap string value,
       d !! "event" = Some (VDict ev) ∧ ev !! "type" ≠ Some (VStr "app_mention")) →
  slack_events rt w self (VDict d) =
  (inr {| status := 200; body := VDict (<["status" := VStr "ok"]> ∅) |}, []).
Proof.
  intros Hc [He|(ev & He & Hty)]; unfold slack_events;
    rewrite (py_contains_absent _ _ Hc), bind_lift_inr.
  - by rewrite (py_contains_absent _ _ He), bind_lift_inr.
  - rewrite (py_contains_present _ _ _ He), bind_lift_inr.
    rewrite (py_getitem_present _ _ _ He), bind_lift_inr.
    rewrite (py_get_dict ev "type"), bind_lift_inr.
    destruct (is_str "app_mention" (default VNone (ev !! "type"))) eqn:His;
      [|done].
    apply is_str_true in His. destruct (ev !! "type"); simplify_eq/=.
Qed.

Lemma slack_events_other_event_witness :
  slack_events Demo.runtime Demo.world_ok Demo.integrator
    (VDict (<["event" := VDict (<["type" := VStr "message"]>
                               (<["text" := VStr "ingest"]> ∅))]> ∅)) =
  (inr {| status := 200; body := VDict (<["status" := VStr "ok"]> ∅) |}, []).
Proof.
  apply (slack_events_other_event Demo.runtime Demo.world_ok Demo.integrator
           (<["event" := VDict (<["type" := VStr "message"]>
                               (<["text" := VStr "ingest"]> ∅))]> ∅)).
  - vm_compute. reflexivity.
  - right. exists (<["type" := VStr "message"]> (<["text" := VStr "ingest"]> ∅)).
    split; [vm_compute; reflexivity|vm_compute; discriminate].
Defined.

(** X10. For a mention with a keyword, the confirmation is posted exactly
    when the pipeline returned: once, to the channel and thread that were
    fetched, with the text built from the answer's [memories_added], or
    from 0 when the answer has no such field. When the pipeline raised,
    nothing is posted. *)
Theorem slack_events_confirms_after_success
    (rt : Runtime) (w : World) (self : SlackToKnowledgeAgent)
    (d ev : gmap string value) (text : string) :
  d !! "challenge" = None →
  d !! "event" = Some (VDict ev) →
  ev !! "type" = Some (VStr "app_mention") →
  ev !! "text" = Some (VStr text) →
  str_contains "ingest" (str_lower text) || str_contains "save" (str_lower text)
    = true →
  let channel := default VNone (ev !! "channel") in
  let thread_ts := thread_ts_or_ts ev in
  confirm_calls (trace (slack_events rt w self (VDict d))) =
  match outcome (ingest_thread rt w self channel thread_ts) with
  | inr (VDict result) =>
      [(channel, thread_ts,
        confirmation_text rt (default (VInt 0) (result !! "memories_added")))]
  | _ => []
  end.
Proof.
  intros Hc He Hty Htext Htrig channel thread_ts.
  rewrite (slack_events_triggered rt w self d ev text) by done.
  fold channel thread_ts. eff_simpl. rewrite events_try_outcome.
  autorewrite with calls. apply events_try_confirm_calls.
Qed.

Lemma slack_events_confirms_after_success_witness :
  confirm_calls
    (trace (slack_events Demo.runtime Demo.world_ok Demo.integrator
              (VDict (Demo.mention_request None)))) =
  [(VStr "C1", VStr "1.5", confirmation_text Demo.runtime (VInt 2))].
Proof.
  apply (slack_events_confirms_after_success Demo.runtime Demo.world_ok
           Demo.integrator (Demo.mention_request None) (Demo.mention None)
           "please Ingest this").
  - vm_compute. reflexivity.
  - vm_compute. reflexivity.
  - vm_compute. reflexivity.
  - vm_compute. reflexivity.
  - vm_compute. reflexivity.
Defined.

(** X11. The events handler raises only before it has done anything: an
    exception leaves it with an empty trace. Every response it returns has
    status 200 and is either the echo of the challenge, with an empty
    trace, or [{status: "ok"}]; so once the pipeline has started, whatever
    fails in it or in the confirmation, the answer is [{status: "ok"}]. *)
Theorem slack_events_responses
    (rt : Runtime) (w : World) (self : SlackToKnowledgeAgent) (data : value) :
  (∀ e, outcome (slack_events rt w self data) = inl e →
        trace (slack_events rt w self data) = []) ∧
  (∀ response, outcome (slack_events rt w self data) = inr response →
     status response = 200 ∧
     (body response = VDict (<["status" := VStr "ok"]> ∅) ∨
      ∃ X, body response = VDict (<["challenge" := X]> ∅) ∧
           trace (slack_events rt w self data) = [])) ∧
  (trace (slack_events rt w self data) ≠ [] →
   outcome (slack_events rt w self data) =
   inr {| status := 200; body := VDict (<["status" := VStr "ok"]> ∅) |}).
Proof.
  destruct (slack_events_runs rt w self data)
    as [[e ->]|[[X ->]|[->|(c & t & ->)]]].
  - split; [done|]. split; [done|]. by intros [].
  - split; [done|]. split; [|by intros []].
    intros response [= <-]. split; [done|]. right. by exists X.
  - split; [done|]. split; [|by intros []].
    intros response [= <-]. split; [done|]. by left.
  - eff_simpl. rewrite events_try_outcome.
    split; [done|]. split; [|done].
    intros response [= <-]. split; [done|]. by left.
Qed.

(** X12. A mention whose [text] field is present but is not a string (a
    JSON [null], a number, a list ...) makes the handler raise an
    [AttributeError] outside its [try] statement: no response is built and
    nothing has been called or printed. *)
Theorem slack_events_text_not_a_string
    (rt : Runtime) (w : World) (self : SlackToKnowledgeAgent)
    (d ev : gmap string value) (text : value) :
  d !! "challenge" = None →
  d !! "event" = Some (VDict ev) →
  ev !! "type" = Some (VStr "app_mention") →
  ev !! "text" = Some text →
  (∀ s, text ≠ VStr s) →
  slack_events rt w self (VDict d) =
  (inl (AttributeError
          ("'" +:+ type_name text +:+ "' object has no attribute 'lower'")), []).
Proof.
  intros Hc He Hty Htext Hns.
  rewrite (slack_events_mention rt w self d ev) by done.
  rewrite Htext. destruct text; try done. by destruct (Hns s).
Qed.

Lemma slack_events_text_not_a_string_witness :
  slack_events Demo.runtime Demo.world_ok Demo.integrator
    (VDict (Demo.mention_with_text VNone)) =
  (inl (AttributeError "'NoneType' object has no attribute 'lower'"), []).
Proof.
  apply (slack_events_text_not_a_string Demo.runtime Demo.world_ok
           Demo.integrator (Demo.mention_with_text VNone)
           (<["type" := VStr "app_mention"]> (<["channel" := VStr "C1"]>
            (<["ts" := VStr "1.5"]> (<["text" := VNone]> ∅)))) VNone).
  - vm_compute. reflexivity.
  - vm_compute. reflexivity.
  - vm_compute. reflexivity.
  - vm_compute. reflexivity.
  - intros s. discriminate.
Defined.

(** X13. The keyword is looked for anywhere in the text and in any mix of
    upper and lower case: a mention whose text is any string, followed by
    a word that lowercases to ["ingest"] or ["save"], followed by any
    string, starts the pipeline - the thread is fetched once, unless the
    pipeline's first line, which prints the channel and the thread
    timestamp, cannot be written to the standard output. *)
Theorem slack_events_keyword_anywhere_any_case
    (rt : Runtime) (w : World) (self : SlackToKnowledgeAgent)
    (d ev : gmap string value) (before word after : string) :
  d !! "challenge" = None →
  d !! "event" = Some (VDict ev) →
  ev !! "type" = Some (VStr "app_mention") →
  ev !! "text" = Some (VStr (before +:+ word +:+ after)) →
  str_lower word = "ingest" ∨ str_lower word = "save" →
  let channel := default VNone (ev !! "channel") in
  let thread_ts := thread_ts_or_ts ev in
  slack_events rt w self (VDict d) =
    (events_try rt w self channel thread_ts;;
     ret (jsonify (<["status" := VStr "ok"]> ∅))) ∧
  fetch_calls (trace (slack_events rt w self (VDict d))) =
  match stdout_error rt (fetching_line rt channel thread_ts) with
  | Some _ => []
  | None => [(channel, thread_ts)]
  end.
Proof.
  intros Hc He Hty Htext Hword.
  assert (str_contains "ingest" (str_lower (before +:+ word +:+ after))
          || str_contains "save" (str_lower (before +:+ word +:+ after)) = true)
    as Htrig.
  { rewrite !str_lower_app.
    destruct Hword as [-> | ->]; rewrite str_contains_app;
      [done|apply orb_true_r]. }
  rewrite (slack_events_triggered rt w self d ev (before +:+ word +:+ after))
    by done.
  split; [done|].
  eff_simpl. rewrite events_try_outcome. autorewrite with calls.
  apply events_try_calls.
Qed.

Lemma slack_events_keyword_anywhere_any_case_witness :
  fetch_calls
    (trace (slack_events Demo.runtime Demo.world_ok Demo.integrator
              (VDict (Demo.mention_with_text (VStr "was unSAVEd, sorry"))))) =
  [(VStr "C1", VStr "1.5")].
Proof.
  etrans.
  - refine (proj2 (slack_events_keyword_anywhere_any_case Demo.runtime Demo.world_ok
             Demo.integrator
             (Demo.mention_with_text (VStr "was unSAVEd, sorry"))
             (<["type" := VStr "app_mention"]> (<["channel" := VStr "C1"]>
              (<["ts" := VStr "1.5"]>
              (<["text" := VStr "was unSAVEd, sorry"]> ∅))))
             "was un" "SAVE" "d, sorry" _ _ _ _ _)).
    + vm_compute. reflexivity.
    + vm_compute. reflexivity.
    + vm_compute. reflexivity.
    + vm_compute. reflexivity.
    + right. vm_compute. reflexivity.
  - vm_compute. reflexivity.
Defined.

Lemma slack_events_responses_witness :
  outcome (slack_events Demo.runtime Demo.world_confirm_unreachable
             Demo.integrator (VDict (Demo.mention_request None))) =
  inr {| status := 200; body := VDict (<["status" := VStr "ok"]> ∅) |}.
Proof.
  apply (slack_events_responses Demo.runtime Demo.world_confirm_unreachable
           Demo.integrator (VDict (Demo.mention_request None))).
  vm_compute. discriminate.
Defined.

(** ** [slack_shortcuts] *)

Section ShortcutsHandler.

Context (rt : Runtime) (w : World) (self : SlackToKnowledgeAgent).

Lemma shortcuts_try_outcome (channel_id thread_ts : value) :
  outcome (shortcuts_try rt w self channel_id thread_ts) =
  match outcome (ingest_thread rt w self channel_id thread_ts) with
  | inl e => inr (error_response e)
  | inr result => inr (saved_response rt result)
  end.
Proof.
  unfold shortcuts_try. eff_simpl.
  destruct (outcome (ingest_thread rt w self channel_id thread_ts))
    as [e|result] eqn:Hrun; [done|].
  apply ingest_thread_returns_dict in Hrun as [r ->].
  rewrite py_get_dict. by eff_simpl.
Qed.

(** A well-formed shortcut reaches the [try] statement. *)
Lemma slack_shortcuts_triggered (form : gmap string string) (payload : string)
    (d c m : gmap string value) (channel_id : value) :
  form !! "payload" = Some payload →
  payload ≠ "" →
  json_loads rt payload = inr (VDict d) →
  d !! "type" = Some (VStr "shortcut") →
  d !! "channel" = Some (VDict c) →
  c !! "id" = Some channel_id →
  default (VDict ∅) (d !! "message") = VDict m →
  slack_shortcuts rt w self form =
  shortcuts_try rt w self channel_id (thread_ts_or_ts m).
Proof.
  intros Hform Hne Hjson Hty Hch Hid Hmsg.
  unfold slack_shortcuts. rewrite Hform.
  destruct payload as [|a payload]; [done|].
  rewrite Hjson, bind_lift_inr, !py_get_dict, !bind_lift_inr, Hty, is_str_same.
  rewrite (py_getitem_present _ _ _ Hch), bind_lift_inr.
  rewrite (py_getitem_present _ _ _ Hid), bind_lift_inr.
  by rewrite Hmsg, thread_ts_of_dict, bind_lift_inr.
Qed.

(** Every way the handler can run. *)
Lemma slack_shortcuts_runs (form : gmap string string) :
  (∃ e, slack_shortcuts rt w self form = (inl e, [])) ∨
  slack_shortcuts rt w self form =
    (inr {| status := 400; body := VDict (<["error" := VStr "No payload"]> ∅) |},
     []) ∨
  slack_shortcuts rt w self form =
    (inr (jsonify (<["status" := VStr "ok"]> ∅)), []) ∨
  ∃ channel_id thread_ts,
    slack_shortcuts rt w self form = shortcuts_try rt w self channel_id thread_ts.
Proof.
  unfold slack_shortcuts.
  destruct (form !! "payload") as [[|c payload]|];
    [by right; left| |by right; left].
  destruct (json_loads rt (String c payload)) as [e|data];
    rewrite ?bind_lift_inl, ?bind_lift_inr; [left; by eexists|].
  destruct (py_get data "type" VNone) as [e|ty];
    rewrite ?bind_lift_inl, ?bind_lift_inr; [left; by eexists|].
  destruct (is_str "shortcut" ty); [|by right; right; left].
  destruct (py_get data "message" (VDict ∅)) as [e|message];
    rewrite ?bind_lift_inl, ?bind_lift_inr; [left; by eexists|].
  destruct (py_getitem data "channel") as [e|channel];
    rewrite ?bind_lift_inl, ?bind_lift_inr; [left; by eexists|].
  destruct (py_getitem channel "id") as [e|channel_id];
    rewrite ?bind_lift_inl, ?bind_lift_inr; [left; by eexists|].
  destruct (thread_ts_of message) as [e|thread_ts];
    rewrite ?bind_lift_inl, ?bind_lift_inr; [left; by eexists|].
  right; right; right. by eauto.
Qed.

End ShortcutsHandler.

(** X14. The shortcuts handler never posts a message to Slack, whatever
    the request and whatever the services answer: unlike the events
    handler, it reports in its HTTP response only. *)
Theorem slack_shortcuts_never_confirms
    (rt : Runtime) (w : World) (self : SlackToKnowledgeAgent)
    (form : gmap string string) :
  confirm_calls (trace (slack_shortcuts rt w self form)) = [].
Proof.
  destruct (slack_shortcuts_cases rt w self form) as [->|(c & t & ->)]; [done|].
  rewrite shortcuts_try_trace. apply ingest_thread_calls.
Qed.

(** X15. A shortcut with a channel id runs the pipeline once, on that
    channel and on the message's [thread_ts] when present and truthy, its
    [ts] otherwise ([None] when the payload has no message): the calls it
    makes are those of one run of the pipeline and no other - none when
    the pipeline's first line cannot be printed, else one fetch, followed
    by one forward of the fetched thread when the fetch returned. The
    answer is 200 with the count of memories (0 when the agent gives none)
    when the pipeline returned, and 500 with the error text when it
    raised. *)
Theorem slack_shortcuts_runs_pipeline
    (rt : Runtime) (w : World) (self : SlackToKnowledgeAgent)
    (form : gmap string string) (payload : string)
    (d c m : gmap string value) (channel_id : value) :
  form !! "payload" = Some payload →
  payload ≠ "" →
  json_loads rt payload = inr (VDict d) →
  d !! "type" = Some (VStr "shortcut") →
  d !! "channel" = Some (VDict c) →
  c !! "id" = Some channel_id →
  default (VDict ∅) (d !! "message") = VDict m →
  let thread_ts := thread_ts_or_ts m in
  calls (trace (slack_shortcuts rt w self form)) =
    match stdout_error rt (fetching_line rt channel_id thread_ts) with
    | Some _ => []
    | None =>
        ConversationsReplies channel_id thread_ts ::
        match outcome (fetch_thread rt w channel_id thread_ts) with
        | inl _ => []
        | inr td => [RequestsPost (endpoint self) (VDict (ingest_payload td)) 30]
        end
    end ∧
  outcome (slack_shortcuts rt w self form) =
  match outcome (ingest_thread rt w self channel_id thread_ts) with
  | inl e => inr (error_response e)
  | inr result => inr (saved_response rt result)
  end.
Proof.
  intros Hform Hne Hjson Hty Hch Hid Hmsg thread_ts.
  rewrite (slack_shortcuts_triggered rt w self form payload d c m channel_id)
    by done.
  fold thread_ts. split.
  - rewrite shortcuts_try_trace. apply calls_ingest_thread.
  - apply shortcuts_try_outcome.
Qed.

Lemma slack_shortcuts_runs_pipeline_witness :
  calls (trace (slack_shortcuts Demo.runtime Demo.world_ok Demo.integrator
                  (<["payload" := Demo.doc_full]> ∅)))
    = [ConversationsReplies (VStr "C1") (VStr "1.5");
       RequestsPost (endpoint Demo.integrator)
         (VDict (ingest_payload Demo.fetched_thread)) 30] ∧
  outcome (slack_shortcuts Demo.runtime Demo.world_ok Demo.integrator
             (<["payload" := Demo.doc_full]> ∅)) =
  inr {| status := 200;
         body := VDict (<["text" := VStr "✅ Thread saved! Created 2 memories."]> ∅) |}.
Proof.
  pose proof (slack_shortcuts_runs_pipeline Demo.runtime Demo.world_ok
                Demo.integrator (<["payload" := Demo.doc_full]> ∅) Demo.doc_full
                (<["type" := VStr "shortcut"]>
                   (<["channel" := VDict (<["id" := VStr "C1"]> ∅)]>
                   (<["message" := VDict (<["ts" := VStr "1.5"]> ∅)]> ∅)))
                (<["id" := VStr "C1"]> ∅) (<["ts" := VStr "1.5"]> ∅) (VStr "C1"))
    as H.
  destruct H as [H1 H2].
  - vm_compute. reflexivity.
  - vm_compute. discriminate.
  - vm_compute. reflexivity.
  - vm_compute. reflexivity.
  - vm_compute. reflexivity.
  - vm_compute. reflexivity.
  - vm_compute. reflexivity.
  - split.
    + etrans; [exact H1|]. vm_compute. reflexivity.
    + etrans; [exact H2|]. vm_compute. reflexivity.
Defined.

(** X16. The shortcuts handler raises only before it has done anything.
    Every response it returns is one of four: 400 with an [error] field,
    200 with [{status: "ok"}] - both with an empty trace -, 200 with a
    [text] field, or 500 with a [text] field; once the pipeline has
    started the handler always answers, with one of the last two. *)
Theorem slack_shortcuts_responses
    (rt : Runtime) (w : World) (self : SlackToKnowledgeAgent)
    (form : gmap string string) :
  (∀ e, outcome (slack_shortcuts rt w self form) = inl e →
        trace (slack_shortcuts rt w self form) = []) ∧
  (∀ response, outcome (slack_shortcuts rt w self form) = inr response →
     (trace (slack_shortcuts rt w self form) = [] ∧
      (response = {| status := 400;
                     body := VDict (<["error" := VStr "No payload"]> ∅) |} ∨
       response = {| status := 200;
                     body := VDict (<["status" := VStr "ok"]> ∅) |})) ∨
     ∃ text, (status response = 200 ∨ status response = 500) ∧
             body response = VDict (<["text" := VStr text]> ∅)) ∧
  (trace (slack_shortcuts rt w self form) ≠ [] →
   ∃ response, outcome (slack_shortcuts rt w self form) = inr response).
Proof.
  destruct (slack_shortcuts_runs rt w self form)
    as [[e ->]|[->|[->|(c & t & ->)]]].
  - split; [done|]. split; [done|]. by intros [].
  - split; [done|]. split; [|by intros []].
    intros response [= <-]. left. split; [done|]. by left.
  - split; [done|]. split; [|by intros []].
    intros response [= <-]. left. split; [done|]. by right.
  - rewrite shortcuts_try_outcome.
    destruct (outcome (ingest_thread rt w self c t)) as [e|result].
    + split; [done|]. split; [|by eexists].
      intros response [= <-]. right. eexists. split; [by right|done].
    + split; [done|]. split; [|by eexists].
      intros response [= <-]. right. eexists. split; [by left|done].
Qed.

Lemma slack_shortcuts_responses_witness :
  ∃ response,
    outcome (slack_shortcuts Demo.runtime Demo.world_agent_array Demo.integrator
               (<["payload" := Demo.doc_full]> ∅)) = inr response.
Proof.
  apply (slack_shortcuts_responses Demo.runtime Demo.world_agent_array
           Demo.integrator (<["payload" := Demo.doc_full]> ∅)).
  vm_compute. discriminate.
Defined.

(** X17. A non-empty payload that [json.loads] rejects makes the handler
    raise the decoder's exception outside its [try] statement: no 400 and
    no 500 response is built, and nothing has been called or printed. *)
Theorem slack_shortcuts_malformed_payload
    (rt : Runtime) (w : World) (self : SlackToKnowledgeAgent)
    (form : gmap string string) (payload : string) (e : exn) :
  form !! "payload" = Some payload →
  payload ≠ "" →
  json_loads rt payload = inl e →
  slack_shortcuts rt w self form = (inl e, []).
Proof.
  intros Hform Hne Hjson. unfold slack_shortcuts. rewrite Hform.
  destruct payload as [|a payload]; [done|]. by rewrite Hjson.
Qed.

Lemma slack_shortcuts_malformed_payload_witness :
  slack_shortcuts Demo.runtime Demo.world_ok Demo.integrator
    (<["payload" := "{oops"]> ∅) =
  (inl (OtherException "Expecting value"), []).
Proof.
  apply (slack_shortcuts_malformed_payload Demo.runtime Demo.world_ok
           Demo.integrator (<["payload" := "{oops"]> ∅) "{oops"
           (OtherException "Expecting value")).
  - vm_compute. reflexivity.
  - discriminate.
  - vm_compute. reflexivity.
Defined.

(** ** The command line entry point *)





(** ** The constructor *)

Lemma rstrip_unchanged (s : string) :
  ends_with "/" s = false → rstrip "/" s = s.
Proof.
  induction s as [|c s IH]; [done|].
  destruct s as [|a s].
  - simpl. unfold ascii_mem. simpl. rewrite orb_false_r. by intros ->.
  - intros Hends. change (ends_with "/" (String a s) = false) in Hends.
    change (rstrip "/" (String c (String a s))) with
      (match rstrip "/" (String a s) with
       | EmptyString =>
           if ascii_mem c "/" then EmptyString else String c EmptyString
       | r => String c r
       end).
    by rewrite (IH Hends).
Qed.

(** X20. A base URL that does not end in ['/'] is stored as given, and
    normalising is idempotent: building an integrator from an already
    stored base changes nothing. *)
Theorem init_keeps_clean_url (slack_token : option string) (url : string) :
  (ends_with "/" url = false →
   knowledge_agent_url (init slack_token url) = url) ∧
  init slack_token (knowledge_agent_url (init slack_token url)) =
  init slack_token url.
Proof.
  split.
  - apply rstrip_unchanged.
  - unfold init. simpl. f_equal.
    apply rstrip_unchanged, rstrip_no_trailing_slash.
Qed.

Lemma init_keeps_clean_url_witness :
  knowledge_agent_url (init None "http://agent:8081/v1") = "http://agent:8081/v1".
Proof.
  apply (init_keeps_clean_url None "http://agent:8081/v1").
  vm_compute. reflexivity.
Defined.

(** ** Failures of the call to the Knowledge Agent *)

(** X21. Whatever goes wrong with the POST - the transport, a status code
    in 400..599, the decoding of the answer - [send_to_knowledge_agent]
    raises that exception unchanged after its single call, and prints the
    error line exactly when the exception is a [RequestException]. *)
Theorem send_to_knowledge_agent_reraises
    (w : World) (self : SlackToKnowledgeAgent)
    (thread_data : gmap string value) (e : exn) :
  forward_outcome w (endpoint self) (VDict (ingest_payload thread_data)) = inl e →
  send_to_knowledge_agent w self thread_data =
  (inl e,
   RequestsPost (endpoint self) (VDict (ingest_payload thread_data)) 30 ::
   match e with
   | RequestException msg => [Print ("Error sending to Knowledge Agent: " +:+ msg)]
   | _ => []
   end).
Proof.
  intros He.
  pose proof (send_to_knowledge_agent_outcome w self thread_data) as Ho.
  pose proof (send_to_knowledge_agent_trace w self thread_data) as Ht.
  rewrite He in Ho, Ht.
  destruct (send_to_knowledge_agent w self thread_data) as [o tr].
  unfold outcome, trace in Ho, Ht. simpl in Ho, Ht. by subst.
Qed.

Lemma send_to_knowledge_agent_reraises_witness :
  send_to_knowledge_agent Demo.world_agent_down Demo.integrator Demo.thread_data =
  (inl (RequestException "Connection refused"),
   [RequestsPost (endpoint Demo.integrator)
      (VDict (ingest_payload Demo.thread_data)) 30;
    Print "Error sending to Knowledge Agent: Connection refused"]).
Proof.
  apply (send_to_knowledge_agent_reraises Demo.world_agent_down Demo.integrator
           Demo.thread_data (RequestException "Connection refused")).
  vm_compute. reflexivity.
Defined.
